(** * ChronoClime: the ACIS scorer and the optimal time window finder

    A shallow embedding of [src/utils/weatherData.ts]: the activity profile
    table with its lookup ([getActivityPreferences]), [calculateACIS] and
    [findOptimalTimeWindow].

    - A JavaScript [number] is an IEEE 754 binary64 value, so it is the
      kernel's primitive [float] (same format, round to nearest even).  The
      comparisons are the IEEE ones, false as soon as one side is NaN, and
      the decimal constants of the source (0.3, 0.2, 0.4, ...) are the
      doubles nearest to them, as in the source.
    - Loop counters and array indices, which the code takes through 6..20
      only, are [nat]; an array is a [list].
    - A local variable that the body assigns is threaded through a [let] or
      a [fold_left], one step per statement or per loop iteration.
    - [activityDefaults] is an object literal; a property read on it sees
      its ten own properties and the members inherited from
      [Object.prototype].
    - Strings are [string]s of ASCII characters; [toLowerCase] is modelled
      on them. *)

From Stdlib Require Import Bool List String Ascii Arith ZArith Lia.
From Stdlib Require Import Floats.
Import ListNotations.

Set Warnings "-inexact-float".

(* ================================================================== *)
(** ** JavaScript primitives used by the module *)
(* ================================================================== *)

Module JS.

Definition number := float.

(** [x >= y], [x <= y], [x > y], [x < y] on numbers. *)
Definition ge (x y : number) : bool := (y <=? x)%float.
Definition le (x y : number) : bool := (x <=? y)%float.
Definition gt (x y : number) : bool := (y <? x)%float.
Definition lt (x y : number) : bool := (x <? y)%float.

(** [x !== y] on numbers. *)
Definition strict_neq (x y : number) : bool := negb (x =? y)%float.

(** [Math.min] and [Math.max] of two numbers: NaN if either is NaN, and
    -0 counts as smaller than +0. *)
Definition Math_min (a b : number) : number :=
  if is_nan a || is_nan b then nan
  else if (a <? b)%float then a
  else if (b <? a)%float then b
  else if get_sign a then a else b.

Definition Math_max (a b : number) : number :=
  if is_nan a || is_nan b then nan
  else if (a <? b)%float then b
  else if (b <? a)%float then a
  else if get_sign a then b else a.

(** [arr.slice(start, end)] for non-negative integer bounds: the elements
    at the indices [start <= i < min end (length arr)]; empty when there
    is none. It never raises. *)
Definition slice {A : Type} (arr : list A) (start end_ : nat) : list A :=
  firstn (end_ - start) (skipn start arr).

(** [arr.push(x)] on the array held in a local variable. *)
Definition push {A : Type} (arr : list A) (x : A) : list A := arr ++ [x].

(** ASCII part of [String.prototype.toLowerCase]: the letters A..Z are
    mapped to a..z, every other character is kept. *)
Definition lower_ascii (c : ascii) : ascii :=
  let n := nat_of_ascii c in
  if (65 <=? n)%nat && (n <=? 90)%nat then ascii_of_nat (n + 32) else c.

Fixpoint toLowerCase (s : string) : string :=
  match s with
  | EmptyString => EmptyString
  | String c r => String (lower_ascii c) (toLowerCase r)
  end.

End JS.

(* ================================================================== *)
(** ** Data model *)
(* ================================================================== *)

Inductive Condition : Set :=
  | sunny | cloudy | rainy | stormy | snowy | partly_cloudy.

Record WeatherCondition : Set := {
  temp : JS.number;
  feelsLike : JS.number;
  precipitation : JS.number;
  wind : JS.number;
  humidity : JS.number;
  uv : JS.number;
  aqi : JS.number;
  condition : Condition;
  description : string
}.

(** A [Date] is kept as its time value (milliseconds since the epoch). *)
Definition Date := Z.

(** [interface HourlyWeather extends WeatherCondition]: the inherited fields
    are read through the coercion. *)
Record HourlyWeather : Set := {
  hourly_base :> WeatherCondition;
  hour : JS.number;
  timestamp : Date
}.

Record DailyWeather : Set := {
  daily_base :> WeatherCondition;
  date : Date;
  tempMin : JS.number;
  tempMax : JS.number;
  hourlyData : list HourlyWeather;
  sunrise : string;
  sunset : string
}.

Record ActivityPreferences : Set := {
  idealTempMin : JS.number;
  idealTempMax : JS.number;
  maxWindSpeed : JS.number;
  maxPrecipitation : JS.number
}.

Record Factor : Set := {
  name : string;
  impact : JS.number;
  value : JS.number
}.

Record ScoreResult : Set := {
  score : JS.number;
  factors : list Factor
}.

Record Window : Set := {
  startHour : nat;
  endHour : nat;
  wscore : JS.number
}.

Local Open Scope string_scope.
Local Open Scope float_scope.

(* ================================================================== *)
(** ** calculateACIS *)
(* ================================================================== *)

(** The function body, statement by statement; the pair carries the two
    locals [factors] and [totalScore]. *)
Definition calculateACIS (weather : DailyWeather)
    (preferences : ActivityPreferences) : ScoreResult :=
  let st : list Factor * JS.number := ([], 10) in
  let tempScore :=
    if JS.ge (temp weather) (idealTempMin preferences)
       && JS.le (temp weather) (idealTempMax preferences)
    then 0 else -2 in
  let st :=
    if JS.strict_neq tempScore 0 then
      (JS.push (fst st)
         {| name := "Temperature"; impact := tempScore; value := temp weather |},
       snd st + tempScore)
    else st in
  let st :=
    if JS.gt (wind weather) (maxWindSpeed preferences) then
      let windPenalty := -1.5 in
      (JS.push (fst st)
         {| name := "Wind"; impact := windPenalty; value := wind weather |},
       snd st + windPenalty)
    else st in
  let st :=
    if JS.gt (precipitation weather) (maxPrecipitation preferences) then
      let precipPenalty := -2.5 in
      (JS.push (fst st)
         {| name := "Precipitation"; impact := precipPenalty;
            value := precipitation weather |},
       snd st + precipPenalty)
    else st in
  let st :=
    if JS.gt (aqi weather) 100 then
      let aqiPenalty := -1 in
      (JS.push (fst st)
         {| name := "Air Quality"; impact := aqiPenalty; value := aqi weather |},
       snd st + aqiPenalty)
    else st in
  let st :=
    if JS.gt (uv weather) 8 then
      let uvPenalty := -0.5 in
      (JS.push (fst st)
         {| name := "UV Index"; impact := uvPenalty; value := uv weather |},
       snd st + uvPenalty)
    else st in
  {| score := JS.Math_max 1 (JS.Math_min 10 (snd st)); factors := fst st |}.

(* ================================================================== *)
(** ** The activity table and its lookup *)
(* ================================================================== *)

(** [activityDefaults] is an object literal: its own properties are the ten
    profiles below, and, like every object literal, it inherits the members
    of [Object.prototype].  A property read [activityDefaults[key]] looks at
    the own properties first and at the prototype next. *)
Inductive JsValue : Set :=
  | VProfile (p : ActivityPreferences)   (* one of the table's own entries *)
  | VInherited (key : string)            (* a member of Object.prototype *)
  | VUndefined.

Definition activityDefaults : list (string * ActivityPreferences) :=
  [ ("trekking",
      {| idealTempMin := 10; idealTempMax := 25; maxWindSpeed := 20; maxPrecipitation := 20 |});
    ("photography",
      {| idealTempMin := 5; idealTempMax := 30; maxWindSpeed := 25; maxPrecipitation := 10 |});
    ("picnic",
      {| idealTempMin := 15; idealTempMax := 28; maxWindSpeed := 15; maxPrecipitation := 5 |});
    ("cycling",
      {| idealTempMin := 12; idealTempMax := 26; maxWindSpeed := 20; maxPrecipitation := 10 |});
    ("beach day",
      {| idealTempMin := 22; idealTempMax := 35; maxWindSpeed := 25; maxPrecipitation := 5 |});
    ("camping",
      {| idealTempMin := 8; idealTempMax := 22; maxWindSpeed := 15; maxPrecipitation := 15 |});
    ("outdoor sports",
      {| idealTempMin := 15; idealTempMax := 28; maxWindSpeed := 20; maxPrecipitation := 10 |});
    ("bird watching",
      {| idealTempMin := 10; idealTempMax := 25; maxWindSpeed := 15; maxPrecipitation := 20 |});
    ("stargazing",
      {| idealTempMin := 5; idealTempMax := 20; maxWindSpeed := 10; maxPrecipitation := 0 |});
    ("gardening",
      {| idealTempMin := 12; idealTempMax := 28; maxWindSpeed := 15; maxPrecipitation := 30 |}) ].

(** The property names every object inherits from [Object.prototype]
    (ECMAScript, sections 20.1.3 and B.2.2); each holds a function, and
    [__proto__] reads as the prototype object itself. *)
Definition Object_prototype_keys : list string :=
  [ "constructor"; "hasOwnProperty"; "isPrototypeOf"; "propertyIsEnumerable";
    "toLocaleString"; "toString"; "valueOf"; "__proto__";
    "__defineGetter__"; "__defineSetter__"; "__lookupGetter__"; "__lookupSetter__" ].

Fixpoint ownProperty (key : string) (props : list (string * ActivityPreferences))
  : option ActivityPreferences :=
  match props with
  | [] => None
  | (k, v) :: rest => if String.eqb k key then Some v else ownProperty key rest
  end.

(** [activityDefaults[key]]. *)
Definition getProperty (key : string) : JsValue :=
  match ownProperty key activityDefaults with
  | Some p => VProfile p
  | None =>
      if existsb (String.eqb key) Object_prototype_keys
      then VInherited key else VUndefined
  end.

(** Objects and functions are truthy, [undefined] is falsy. *)
Definition truthy (v : JsValue) : bool :=
  match v with
  | VProfile _ | VInherited _ => true
  | VUndefined => false
  end.

(** [a || b]. *)
Definition js_or (a b : JsValue) : JsValue := if truthy a then a else b.

Definition getActivityPreferences (activityName : string) : JsValue :=
  let normalized := JS.toLowerCase activityName in
  js_or (getProperty normalized) (getProperty "trekking").

(** What the scorer and the window finder read from the value they are
    handed as [preferences]: the four fields of a profile; on one of the
    inherited members the four reads give [undefined], which every
    comparison of the two functions converts to NaN. *)
Definition readPreferences (v : JsValue) : ActivityPreferences :=
  match v with
  | VProfile p => p
  | VInherited _ | VUndefined =>
      {| idealTempMin := nan; idealTempMax := nan;
         maxWindSpeed := nan; maxPrecipitation := nan |}
  end.

(* ================================================================== *)
(** ** findOptimalTimeWindow *)
(* ================================================================== *)

(** The body of the [forEach] callback, as a step on the local [score]. *)
Definition hourStep (preferences : ActivityPreferences) (score : JS.number)
    (hour : HourlyWeather) : JS.number :=
  let score :=
    if JS.lt (temp hour) (idealTempMin preferences)
       || JS.gt (temp hour) (idealTempMax preferences)
    then score - 0.3 else score in
  let score :=
    if JS.gt (wind hour) (maxWindSpeed preferences) then score - 0.2 else score in
  let score :=
    if JS.gt (precipitation hour) (maxPrecipitation preferences)
    then score - 0.4 else score in
  score.

(** The body of the inner loop, as a step on the local [bestWindow]. *)
Definition tryWindow (hourlyData : list HourlyWeather)
    (preferences : ActivityPreferences) (start : nat)
    (bestWindow : Window) (duration : nat) : Window :=
  let end_ := (start + duration)%nat in
  if (20 <? end_)%nat then bestWindow            (* continue *)
  else
    let windowHours := JS.slice hourlyData start end_ in
    let score := fold_left (hourStep preferences) windowHours 10 in
    if JS.gt score (wscore bestWindow)
    then {| startHour := start; endHour := end_; wscore := score |}
    else bestWindow.

Definition findOptimalTimeWindow (hourlyData : list HourlyWeather)
    (preferences : ActivityPreferences) : Window :=
  let bestWindow := {| startHour := 9; endHour := 17; wscore := 0 |} in
  fold_left
    (fun bestWindow start =>
       fold_left (tryWindow hourlyData preferences start) (seq 3 6) bestWindow)
    (seq 6 12) bestWindow.

(* ================================================================== *)
(** ** The ambient effects of the module *)
(* ================================================================== *)

(** Other functions of the file draw from [Math.random] and read the clock
    ([new Date()]).  The world they run in is the stream of numbers still to
    be drawn and the current time; a call is a function from the world to a
    result and the world after it. *)
Record World : Type := {
  randoms : nat -> JS.number;
  now : Date
}.

Definition Eff (A : Type) : Type := World -> A * World.

Definition ret {A : Type} (a : A) : Eff A := fun w => (a, w).

Definition bind {A B : Type} (m : Eff A) (k : A -> Eff B) : Eff B :=
  fun w => let (a, w') := m w in k a w'.

Definition Math_random : Eff JS.number :=
  fun w => (randoms w 0%nat,
            {| randoms := fun n => randoms w (S n); now := now w |}).

Definition getRandomInRange (min max : JS.number) : Eff JS.number :=
  bind Math_random (fun r => ret (r * (max - min) + min)).

(* ================================================================== *)
(** ** The two bodies as programs on a store *)
(* ================================================================== *)

(** To speak of hidden state and of the history of calls, the two bodies are
    written once more as programs: every array and every object that a body
    creates is allocated in a store, at the next free address, and is read
    and changed through its address.  The store also holds the world of the
    module.  The arguments are only read by the two bodies; they are given
    by their content at the time of the call. *)
Inductive Obj : Set :=
  | FactorArray (items : list Factor)
  | HourArray (items : list HourlyWeather)
  | WindowObj (w : Window).

Record Store : Type := {
  world : World;
  objects : list Obj
}.

(** A program gives a value and the store after it, or raises ([None]). *)
Definition Prog (A : Type) : Type := Store -> option (A * Store).

Definition done {A : Type} (a : A) : Prog A := fun s => Some (a, s).

Definition raise {A : Type} : Prog A := fun _ => None.

Definition andThen {A B : Type} (m : Prog A) (k : A -> Prog B) : Prog B :=
  fun s => match m s with
           | Some (a, s') => k a s'
           | None => None
           end.

Notation "x <~ m ;; k" := (andThen m (fun x => k))
  (at level 61, m at next level, right associativity).

(** A call of a function that runs in the world, such as [Math.random]. *)
Definition inWorld {A : Type} (m : Eff A) : Prog A :=
  fun s => let (a, w) := m (world s) in
           Some (a, {| world := w; objects := objects s |}).

(** An array literal or an object literal: a new object. *)
Definition alloc (o : Obj) : Prog nat :=
  fun s => Some (List.length (objects s),
                 {| world := world s; objects := objects s ++ [o] |}).

Fixpoint updateAt (a : nat) (o : Obj) (l : list Obj) : list Obj :=
  match l with
  | [] => []
  | x :: r =>
      match a with
      | O => o :: r
      | S a' => x :: updateAt a' o r
      end
  end.

(** [factors.push(x)], on the array at the address [factors]; a TypeError
    when there is no array there. *)
Definition pushFactor (factors : nat) (x : Factor) : Prog unit :=
  fun s => match nth_error (objects s) factors with
           | Some (FactorArray items) =>
               Some (tt, {| world := world s;
                            objects := updateAt factors (FactorArray (items ++ [x]))
                                         (objects s) |})
           | _ => None
           end.

(** The elements that [forEach] visits, and the fields of a window. *)
Definition readHours (arr : nat) : Prog (list HourlyWeather) :=
  fun s => match nth_error (objects s) arr with
           | Some (HourArray items) => Some (items, s)
           | _ => None
           end.

Definition readWindow (obj : nat) : Prog Window :=
  fun s => match nth_error (objects s) obj with
           | Some (WindowObj w) => Some (w, s)
           | _ => None
           end.

(** A [for] loop on a local variable. *)
Fixpoint forM {A B : Type} (f : A -> B -> Prog A) (l : list B) (a : A) : Prog A :=
  match l with
  | [] => done a
  | x :: r => a' <~ f a x ;; forM f r a'
  end.

(** [calculateACIS]; the result stands for the object [{ score, factors }],
    whose second field is the address of the array. *)
Definition calculateACIS_body (weather : DailyWeather)
    (preferences : ActivityPreferences) : Prog (JS.number * nat) :=
  factors <~ alloc (FactorArray []) ;;
  let totalScore := 10 in
  let tempScore :=
    if JS.ge (temp weather) (idealTempMin preferences)
       && JS.le (temp weather) (idealTempMax preferences)
    then 0 else -2 in
  totalScore <~
    (if JS.strict_neq tempScore 0 then
       _ <~ pushFactor factors
              {| name := "Temperature"; impact := tempScore; value := temp weather |} ;;
       done (totalScore + tempScore)
     else done totalScore) ;;
  totalScore <~
    (if JS.gt (wind weather) (maxWindSpeed preferences) then
       let windPenalty := -1.5 in
       _ <~ pushFactor factors
              {| name := "Wind"; impact := windPenalty; value := wind weather |} ;;
       done (totalScore + windPenalty)
     else done totalScore) ;;
  totalScore <~
    (if JS.gt (precipitation weather) (maxPrecipitation preferences) then
       let precipPenalty := -2.5 in
       _ <~ pushFactor factors
              {| name := "Precipitation"; impact := precipPenalty;
                 value := precipitation weather |} ;;
       done (totalScore + precipPenalty)
     else done totalScore) ;;
  totalScore <~
    (if JS.gt (aqi weather) 100 then
       let aqiPenalty := -1 in
       _ <~ pushFactor factors
              {| name := "Air Quality"; impact := aqiPenalty; value := aqi weather |} ;;
       done (totalScore + aqiPenalty)
     else done totalScore) ;;
  totalScore <~
    (if JS.gt (uv weather) 8 then
       let uvPenalty := -0.5 in
       _ <~ pushFactor factors
              {| name := "UV Index"; impact := uvPenalty; value := uv weather |} ;;
       done (totalScore + uvPenalty)
     else done totalScore) ;;
  done (JS.Math_max 1 (JS.Math_min 10 totalScore), factors).

(** The body of the inner loop of [findOptimalTimeWindow]; [bestWindow] is
    the address of the object the variable holds. *)
Definition tryWindow_body (hourlyData : list HourlyWeather)
    (preferences : ActivityPreferences) (start : nat)
    (bestWindow : nat) (duration : nat) : Prog nat :=
  let end_ := (start + duration)%nat in
  if (20 <? end_)%nat then done bestWindow            (* continue *)
  else
    windowHours <~ alloc (HourArray (JS.slice hourlyData start end_)) ;;
    hours <~ readHours windowHours ;;
    let score := fold_left (hourStep preferences) hours 10 in
    best <~ readWindow bestWindow ;;
    if JS.gt score (wscore best)
    then alloc (WindowObj {| startHour := start; endHour := end_; wscore := score |})
    else done bestWindow.

(** [findOptimalTimeWindow]; the result is the address of the returned
    object. *)
Definition findOptimalTimeWindow_body (hourlyData : list HourlyWeather)
    (preferences : ActivityPreferences) : Prog nat :=
  bestWindow <~ alloc (WindowObj {| startHour := 9; endHour := 17; wscore := 0 |}) ;;
  forM
    (fun bestWindow start =>
       forM (tryWindow_body hourlyData preferences start) (seq 3 6) bestWindow)
    (seq 6 12) bestWindow.

(** What a call leaves of the store it found: the world as it was, and every
    object that was there, unchanged at its address. *)
Definition preserves (before after : Store) : Prop :=
  world after = world before
  /\ exists created, objects after = (objects before ++ created)%list.

(* ================================================================== *)
(** ** Sample inputs *)
(* ================================================================== *)

Definition trekking : ActivityPreferences :=
  {| idealTempMin := 10; idealTempMax := 25; maxWindSpeed := 20; maxPrecipitation := 20 |}.

Definition sampleCondition (t w p a u : JS.number) : WeatherCondition :=
  {| temp := t; feelsLike := t; precipitation := p; wind := w; humidity := 50;
     uv := u; aqi := a; condition := sunny; description := "Clear and sunny" |}.

Definition sampleDay (t w p a u : JS.number) : DailyWeather :=
  {| daily_base := sampleCondition t w p a u; date := 0%Z; tempMin := t;
     tempMax := t; hourlyData := []; sunrise := "06:30"; sunset := "18:45" |}.

Definition sampleHour (n : nat) (t w p : JS.number) : HourlyWeather :=
  {| hourly_base := sampleCondition t w p 30 3;
     hour := of_uint63 (Uint63.of_Z (Z.of_nat n)); timestamp := Z.of_nat n |}.

(** Twenty-four hourly samples with the same readings. *)
Definition sameAllDay (t w p : JS.number) : list HourlyWeather :=
  map (fun n => sampleHour n t w p) (seq 0 24).

(* ================================================================== *)
(** ** The score and the factors, as the specification words them *)
(* ================================================================== *)

(** The reading of the score that the specification gives: a clamp of
    ten plus five independent penalties. *)
Definition clamp (lo hi x : JS.number) : JS.number :=
  if x <? lo then lo else if hi <? x then hi else x.

Definition penalty (triggered : bool) (amount : JS.number) : JS.number :=
  if triggered then amount else 0.

(** The temperature is outside the ideal range when it is not inside
    [idealTempMin <= temp <= idealTempMax]. *)
Definition tempOutside (w : WeatherCondition) (p : ActivityPreferences) : bool :=
  negb ((idealTempMin p <=? temp w) && (temp w <=? idealTempMax p)).

Definition windOver (w : WeatherCondition) (p : ActivityPreferences) : bool :=
  maxWindSpeed p <? wind w.

Definition precipOver (w : WeatherCondition) (p : ActivityPreferences) : bool :=
  maxPrecipitation p <? precipitation w.

Definition aqiOver (w : WeatherCondition) : bool := 100 <? aqi w.

Definition uvOver (w : WeatherCondition) : bool := 8 <? uv w.

Definition penaltySum (w : WeatherCondition) (p : ActivityPreferences) : JS.number :=
  penalty (tempOutside w p) (-2) + penalty (windOver w p) (-1.5)
  + penalty (precipOver w p) (-2.5) + penalty (aqiOver w) (-1)
  + penalty (uvOver w) (-0.5).

(** The entry a triggered rule records, and nothing when it is not
    triggered. *)
Definition entry (triggered : bool) (label : string) (amount v : JS.number)
  : list Factor :=
  if triggered then [ {| name := label; impact := amount; value := v |} ] else [].

Definition expectedFactors (w : WeatherCondition) (p : ActivityPreferences)
  : list Factor :=
  entry (tempOutside w p) "Temperature" (-2) (temp w)
  ++ entry (windOver w p) "Wind" (-1.5) (wind w)
  ++ entry (precipOver w p) "Precipitation" (-2.5) (precipitation w)
  ++ entry (aqiOver w) "Air Quality" (-1) (aqi w)
  ++ entry (uvOver w) "UV Index" (-0.5) (uv w).

Definition factorLabels : list string :=
  [ "Temperature"; "Wind"; "Precipitation"; "Air Quality"; "UV Index" ].

(* ================================================================== *)
(** ** The enumerated candidates and the search over them *)
(* ================================================================== *)

(** A candidate is a pair (start, end).  The loops visit them in this
    order, after the [continue] on [end > 20]. *)
Definition windowsFrom (start : nat) : list (nat * nat) :=
  flat_map
    (fun duration =>
       if (20 <? start + duration)%nat then [] else [(start, start + duration)%nat])
    (seq 3 6).

Definition candidates : list (nat * nat) := flat_map windowsFrom (seq 6 12).

(** The enumerated candidate space, as the specification words it. *)
Definition isCandidate (s e : nat) : Prop :=
  (6 <= s <= 17 /\ s + 3 <= e <= s + 8 /\ e <= 20)%nat.

Definition candidateScore (hourlyData : list HourlyWeather)
    (preferences : ActivityPreferences) (c : nat * nat) : JS.number :=
  fold_left (hourStep preferences) (JS.slice hourlyData (fst c) (snd c)) 10.

Definition windowOf (sc : nat * nat -> JS.number) (c : nat * nat) : Window :=
  {| startHour := fst c; endHour := snd c; wscore := sc c |}.

Definition keepBest (sc : nat * nat -> JS.number) (best : Window) (c : nat * nat)
  : Window :=
  if JS.gt (sc c) (wscore best) then windowOf sc c else best.

Definition initialWindow : Window :=
  {| startHour := 9; endHour := 17; wscore := 0 |}.

Definition search (sc : nat * nat -> JS.number) : Window :=
  fold_left (keepBest sc) candidates initialWindow.

Definition isCandidateb (s e : nat) : bool :=
  ((6 <=? s) && (s <=? 17) && (s + 3 <=? e) && (e <=? s + 8) && (e <=? 20))%nat.

Definition pair_eqb (c d : nat * nat) : bool :=
  ((fst c =? fst d) && (snd c =? snd d))%nat.

(* ================================================================== *)
(** ** The scores a window can reach *)
(* ================================================================== *)

(** The subtractions are rounded, so a candidate's score depends on the order
    in which the penalties fall.  The values it can take after [k] hours are
    enumerated, starting from 10, without repeats. *)
Definition float_eq_dec (x y : float) : {x = y} + {x <> y}.
Proof.
  destruct (Leibniz.eqb x y) eqn:E.
  - left. apply Leibniz.eqb_spec. exact E.
  - right. intros H. apply Leibniz.eqb_spec in H. congruence.
Defined.

Definition subtractIf (triggered : bool) (amount score : JS.number) : JS.number :=
  if triggered then score - amount else score.

Definition stepWith (t : bool * bool * bool) (score : JS.number) : JS.number :=
  let '(a, b, c) := t in
  subtractIf c 0.4 (subtractIf b 0.2 (subtractIf a 0.3 score)).

Definition tempBad (p : ActivityPreferences) (h : WeatherCondition) : bool :=
  JS.lt (temp h) (idealTempMin p) || JS.gt (temp h) (idealTempMax p).

Definition windBad (p : ActivityPreferences) (h : WeatherCondition) : bool :=
  JS.gt (wind h) (maxWindSpeed p).

Definition precipBad (p : ActivityPreferences) (h : WeatherCondition) : bool :=
  JS.gt (precipitation h) (maxPrecipitation p).

Definition triggerCases : list (bool * bool * bool) :=
  list_prod (list_prod [false; true] [false; true]) [false; true].

Definition nextScores (R : list JS.number) : list JS.number :=
  nodup float_eq_dec (flat_map (fun s => map (fun t => stepWith t s) triggerCases) R).

Fixpoint scoresAfter (k : nat) : list JS.number :=
  match k with
  | O => [10]
  | S k' => nextScores (scoresAfter k')
  end.

(** Every value a window of at most eight hours can score. *)
Definition windowScores : list JS.number := Eval vm_compute in scoresAfter 8.

(* ================================================================== *)
(** ** The order of the reachable scores *)
(* ================================================================== *)

(** On a positive double the pair (exponent, mantissa) grows with the
    value; [scoreKey] reads it as one integer.  On the reachable scores and
    on 0, the score of the initial window, the comparisons of the code agree
    with the comparisons of the keys. *)
Definition scoreKey (x : JS.number) : Z :=
  let (m, e) := frshiftexp x in
  (Uint63.to_Z e * 2 ^ 53 + Uint63.to_Z (normfr_mantissa m))%Z.

Definition validScores : list JS.number := 0 :: windowScores.

Definition keyed (l : list JS.number) : list (JS.number * Z) :=
  map (fun x => (x, scoreKey x)) l.

Definition orderAgrees (a b : JS.number * Z) : bool :=
  let (x, kx) := a in
  let (y, ky) := b in
  Bool.eqb (JS.gt x y) (ky <? kx)%Z
  && Bool.eqb (x =? y) (kx =? ky)%Z
  && Bool.eqb (JS.le x y) (kx <=? ky)%Z.

(* ================================================================== *)
(** ** Hours that cost nothing *)
(* ================================================================== *)

(** An hour is within the bounds of a profile when its temperature is
    inside the ideal range and neither wind nor precipitation exceeds its
    maximum. *)
Definition withinBounds (p : ActivityPreferences) (h : HourlyWeather) : bool :=
  (idealTempMin p <=? temp h) && (temp h <=? idealTempMax p)
  && (wind h <=? maxWindSpeed p) && (precipitation h <=? maxPrecipitation p).

(* ================================================================== *)
(** ** The iteration order of the candidates *)
(* ================================================================== *)

(** [beforeb c d]: the candidate [c] has the smaller start or, for the
    same start, the smaller end.  [orderedb] checks that every element of a
    list is before the ones that follow it. *)
Definition beforeb (c d : nat * nat) : bool :=
  ((fst c <? fst d) || ((fst c =? fst d) && (snd c <? snd d)))%nat.

Fixpoint orderedb (l : list (nat * nat)) : bool :=
  match l with
  | [] => true
  | a :: r => forallb (beforeb a) r && orderedb r
  end.

(* ================================================================== *)
(** ** getHealthAlerts *)
(* ================================================================== *)

Definition alertPoorAir : string :=
  "Air quality is poor. High risk of respiratory irritation. Consider rescheduling or wearing a protective mask if you go out.".

Definition alertModerateAir : string :=
  "Moderate air quality. Sensitive individuals should limit prolonged outdoor activities.".

Definition alertStrongSun : string :=
  "Strong sun expected. High risk of sunburn in under 30 minutes. Apply sunscreen and wear protective clothing.".

Definition alertModerateUV : string :=
  "Moderate UV levels. Sunscreen recommended for extended outdoor exposure.".

Definition alertHypothermia : string :=
  "Risk of hypothermia during prolonged exposure. Dress in appropriate layers and stay active.".

Definition alertHeatstroke : string :=
  "Risk of heatstroke during prolonged exposure. Stay hydrated and take frequent breaks in shade.".

Definition alertStrongWind : string :=
  "Strong winds expected. Secure loose objects and be cautious of falling debris.".

Definition alertHeavyRain : string :=
  "Heavy precipitation expected. Risk of flooding in low-lying areas. Drive carefully and avoid unnecessary travel.".

(** The body, statement by statement, on the local [alerts]. *)
Definition getHealthAlerts (weather : DailyWeather) : list string :=
  let alerts : list string := [] in
  let alerts :=
    if JS.gt (aqi weather) 150 then JS.push alerts alertPoorAir
    else if JS.gt (aqi weather) 100 then JS.push alerts alertModerateAir
    else alerts in
  let alerts :=
    if JS.gt (uv weather) 8 then JS.push alerts alertStrongSun
    else if JS.gt (uv weather) 6 then JS.push alerts alertModerateUV
    else alerts in
  let alerts :=
    if JS.lt (temp weather) 5 then JS.push alerts alertHypothermia
    else if JS.gt (temp weather) 35 then JS.push alerts alertHeatstroke
    else alerts in
  let alerts :=
    if JS.gt (wind weather) 40 then JS.push alerts alertStrongWind else alerts in
  let alerts :=
    if JS.gt (precipitation weather) 70 then JS.push alerts alertHeavyRain
    else alerts in
  alerts.

(* ================================================================== *)
(** ** getConditionForTemp and getConditionDescription *)
(* ================================================================== *)

Definition getConditionForTemp (temp precip : JS.number) : Condition :=
  if JS.gt precip 60 then (if JS.lt temp 0 then snowy else rainy)
  else if JS.gt precip 30 then stormy
  else if JS.gt precip 10 then partly_cloudy
  else if JS.gt temp 25 then sunny
  else if JS.gt temp 15 then partly_cloudy else cloudy.

Definition getConditionDescription (condition : Condition) : string :=
  match condition with
  | sunny => "Clear and sunny"
  | partly_cloudy => "Partly cloudy"
  | cloudy => "Overcast"
  | rainy => "Rainy"
  | stormy => "Thunderstorms possible"
  | snowy => "Snow expected"
  end.

(* ================================================================== *)
(** ** ACISResults: the scored days and the best day *)
(* ================================================================== *)

(** One element of [resultsWithScores], the object [{ day, ...result }]. *)
Record ScoredDay : Set := {
  r_day : DailyWeather;
  r_score : JS.number;
  r_factors : list Factor
}.

Definition resultsWithScores (activity : string) (forecast : list DailyWeather)
  : list ScoredDay :=
  let preferences := readPreferences (getActivityPreferences activity) in
  map (fun day =>
         let result := calculateACIS day preferences in
         {| r_day := day; r_score := score result; r_factors := factors result |})
      forecast.

(** The callback of the [reduce], on the accumulator [maxIdx].  Reading
    [arr[maxIdx].score] raises a TypeError when [arr[maxIdx]] is undefined;
    [None] stands for that. *)
Definition bestStep (arr : list ScoredDay) (acc : option nat)
    (item : nat * ScoredDay) : option nat :=
  let (idx, curr) := item in
  match acc with
  | None => None
  | Some maxIdx =>
      match nth_error arr maxIdx with
      | None => None
      | Some best =>
          Some (if JS.gt (r_score curr) (r_score best) then idx else maxIdx)
      end
  end.

(** [arr.reduce(callback, 0)]: the callback runs on every element with its
    index, in order, starting from 0. *)
Definition bestDayIndexOf (arr : list ScoredDay) : option nat :=
  fold_left (bestStep arr) (combine (seq 0 (List.length arr)) arr) (Some 0%nat).

Definition bestDayIndex (activity : string) (forecast : list DailyWeather)
  : option nat :=
  bestDayIndexOf (resultsWithScores activity forecast).

(** [resultsWithScores[bestDayIndex]]; [None] is [undefined]. *)
Definition bestResult (activity : string) (forecast : list DailyWeather)
  : option ScoredDay :=
  match bestDayIndex activity forecast with
  | Some i => nth_error (resultsWithScores activity forecast) i
  | None => None
  end.

(** The colour class of a day's card and the hint under it. *)
Definition scoreClass (score : JS.number) : string :=
  if JS.ge score 8 then "text-green-600"
  else if JS.ge score 6 then "text-blue-600"
  else if JS.ge score 4 then "text-orange-600"
  else "text-red-600".

Definition showsAlternativeHint (score : JS.number) : bool := JS.lt score 6.

(* ================================================================== *)
(** ** DayDetail: the icon and the highlighted hours *)
(* ================================================================== *)

Inductive Icon : Set := Sun | CloudRain | Cloud.

(** The string a [condition] field holds. *)
Definition conditionTag (c : Condition) : string :=
  match c with
  | sunny => "sunny"
  | cloudy => "cloudy"
  | rainy => "rainy"
  | stormy => "stormy"
  | snowy => "snowy"
  | partly_cloudy => "partly-cloudy"
  end.

(** The [switch] of [WeatherIcon], with its [default]. *)
Definition WeatherIcon (condition : string) : Icon :=
  if String.eqb condition "sunny" then Sun
  else if String.eqb condition "rainy" || String.eqb condition "stormy" then CloudRain
  else if String.eqb condition "cloudy" || String.eqb condition "partly-cloudy" then Cloud
  else Sun.

(** A loop counter or an index, as the number it is in the source. *)
Definition ofNat (n : nat) : JS.number := of_uint63 (Uint63.of_Z (Z.of_nat n)).

Definition isOptimal (optimalWindow : Window) (h : HourlyWeather) : bool :=
  JS.ge (hour h) (ofNat (startHour optimalWindow))
  && JS.lt (hour h) (ofNat (endHour optimalWindow)).

(** The hours drawn as optimal for a day and an activity. *)
Definition optimalHours (day : DailyWeather) (activity : string)
  : list HourlyWeather :=
  let preferences := readPreferences (getActivityPreferences activity) in
  let optimalWindow := findOptimalTimeWindow (hourlyData day) preferences in
  filter (isOptimal optimalWindow) (hourlyData day).

Definition sampleDayWith (hours : list HourlyWeather) (t w p a u : JS.number)
  : DailyWeather :=
  {| daily_base := sampleCondition t w p a u; date := 0%Z; tempMin := t;
     tempMax := t; hourlyData := hours; sunrise := "06:30"; sunset := "18:45" |}.

(* ================================================================== *)
(** ** The scores a day can get *)
(* ================================================================== *)

Definition boolCases5 : list (bool * bool * bool * bool * bool) :=
  list_prod (list_prod (list_prod (list_prod [false; true] [false; true])
                                  [false; true]) [false; true]) [false; true].

Definition scoreOfTriggers (t : bool * bool * bool * bool * bool) : JS.number :=
  let '(a, b, c, d, e) := t in
  clamp 1 10 (10 + (penalty a (-2) + penalty b (-1.5) + penalty c (-2.5)
                    + penalty d (-1) + penalty e (-0.5))).

Definition acisScores : list JS.number :=
  Eval vm_compute in nodup float_eq_dec (map scoreOfTriggers boolCases5).

(* ================================================================== *)
(** ** Checks on lists of strings *)
(* ================================================================== *)

Definition memb (x : string) (l : list string) : bool := existsb (String.eqb x) l.

Fixpoint nodupb (l : list string) : bool :=
  match l with
  | [] => true
  | x :: r => negb (memb x r) && nodupb r
  end.

(** [subseqb a l]: the elements of [a] occur in [l], in the same order. *)
Fixpoint subseqb (a l : list string) : bool :=
  match l with
  | [] => match a with [] => true | _ :: _ => false end
  | y :: l' =>
      match a with
      | [] => true
      | x :: a' => if String.eqb x y then subseqb a' l' else subseqb a l'
      end
  end.

(** The eight alerts, in the order in which the function can push them. *)
Definition allAlerts : list string :=
  [ alertPoorAir; alertModerateAir; alertStrongSun; alertModerateUV;
    alertHypothermia; alertHeatstroke; alertStrongWind; alertHeavyRain ].

Definition alertsShape (a : list string) : bool :=
  (List.length a <=? 5)%nat && nodupb a && subseqb a allAlerts
  && negb (memb alertPoorAir a && memb alertModerateAir a)
  && negb (memb alertStrongSun a && memb alertModerateUV a)
  && negb (memb alertHypothermia a && memb alertHeatstroke a).

Definition hasFactor (label : string) (fs : list Factor) : bool :=
  existsb (fun f => String.eqb (name f) label) fs.

(* ================================================================== *)
(** ** The generators of mock data *)
(* ================================================================== *)

(** The generators call functions of the platform that are outside the
    repository: [Math.sin], [Math.round] and the local-time methods of
    [Date].  They are the variables of the section, so that what is proved
    of the generators holds whatever these functions compute.  [tick] is the
    time that passes between two reads of the clock. *)
Section Generators.

Variable Math_sin : JS.number -> JS.number.
Variable Math_round : JS.number -> JS.number.
Variable getHours getDay getMonth : Date -> JS.number.
Variable setHours : Date -> JS.number -> Date.
Variable getDate : Date -> JS.number.
Variable setDate : Date -> JS.number -> Date.
Variable tick : Date -> Date.

Notation "x <- m ;; k" := (bind m (fun x => k))
  (at level 61, m at next level, right associativity).

Definition Math_PI : JS.number := 3.141592653589793.

(** [new Date()]. *)
Definition newDate : Eff Date :=
  fun w => (now w, {| randoms := randoms w; now := tick (now w) |}).

(** A [for] loop that pushes one element per iteration. *)
Fixpoint forEachM {A : Type} (l : list nat) (body : nat -> Eff A) : Eff (list A) :=
  match l with
  | [] => ret []
  | i :: rest =>
      a <- body i ;;
      more <- forEachM rest body ;;
      ret (a :: more)
  end.

Definition generateRealisticAQI (lat lon : JS.number) : Eff JS.number :=
  d1 <- newDate ;;
  let hour := getHours d1 in
  d2 <- newDate ;;
  let dayOfWeek := getDay d2 in
  d3 <- newDate ;;
  let month := getMonth d3 in
  let baseAQI := 15 in
  let baseAQI :=
    if JS.lt (abs lat) 50 && JS.lt (abs lon) 50 then baseAQI + 8 else baseAQI in
  let baseAQI :=
    if (JS.ge hour 7 && JS.le hour 9) || (JS.ge hour 17 && JS.le hour 19)
    then baseAQI + 5 else baseAQI in
  let baseAQI :=
    if (dayOfWeek =? 0) || (dayOfWeek =? 6) then baseAQI - 3 else baseAQI in
  let baseAQI :=
    if JS.ge month 10 || JS.le month 2 then baseAQI + 4
    else if JS.ge month 3 && JS.le month 5 then baseAQI + 2
    else if JS.ge month 6 && JS.le month 8 then baseAQI + 3
    else baseAQI in
  r <- Math_random ;;
  let variation := (r - 0.5) * 6 in
  let finalAQI := JS.Math_max 8 (JS.Math_min 65 (Math_round (baseAQI + variation))) in
  ret finalAQI.

(** The body of the loop of [generateHourlyWeather], for the hour [n]. *)
Definition generateHour (date : Date) (baseTemp : JS.number) (n : nat)
  : Eff HourlyWeather :=
  let hour := ofNat n in
  let tempVariation := Math_sin ((hour - 6) * Math_PI / 12) * 8 in
  let temp := Math_round (baseTemp + tempVariation) in
  r1 <- getRandomInRange (-3) 3 ;;
  let feelsLike := temp + r1 in
  r2 <- getRandomInRange (-10) 40 ;;
  let precipitation := JS.Math_max 0 r2 in
  wind <- getRandomInRange 5 30 ;;
  humidity <- getRandomInRange 30 80 ;;
  uv <- (if JS.ge hour 6 && JS.le hour 18 then getRandomInRange 2 11 else ret 0) ;;
  aqi <- generateRealisticAQI 0 0 ;;
  let condition := getConditionForTemp temp precipitation in
  let timestamp := setHours date hour in
  ret {| hourly_base :=
           {| temp := Math_round temp;
              feelsLike := Math_round feelsLike;
              precipitation := Math_round precipitation;
              wind := Math_round wind;
              humidity := Math_round humidity;
              uv := Math_round uv;
              aqi := Math_round aqi;
              condition := condition;
              description := getConditionDescription condition |};
         hour := hour;
         timestamp := timestamp |}.

Definition generateHourlyWeather (date : Date) (baseTemp : JS.number)
  : Eff (list HourlyWeather) :=
  forEachM (seq 0 24) (generateHour date baseTemp).

(** The sums of the [reduce] of [generateDailyForecast]. *)
Record Sums : Set := {
  s_precipitation : JS.number;
  s_wind : JS.number;
  s_humidity : JS.number;
  s_uv : JS.number;
  s_aqi : JS.number
}.

Definition addHour (acc : Sums) (h : HourlyWeather) : Sums :=
  {| s_precipitation := s_precipitation acc + precipitation h;
     s_wind := s_wind acc + wind h;
     s_humidity := s_humidity acc + humidity h;
     s_uv := s_uv acc + uv h;
     s_aqi := s_aqi acc + aqi h |}.

(** The body of the loop of [generateDailyForecast], for the day [i]. *)
Definition generateDay (startDate : Date) (baseTemp : JS.number) (i : nat)
  : Eff DailyWeather :=
  (* const date = new Date(startDate); date.setDate(date.getDate() + i) *)
  let date := setDate startDate (getDate startDate + ofNat i) in
  r <- getRandomInRange (-5) 5 ;;
  let dayTemp := baseTemp + r in
  hourlyData <- generateHourlyWeather date dayTemp ;;
  let temps := map (fun h : HourlyWeather => temp h) hourlyData in
  let tempMin := fold_left JS.Math_min temps infinity in
  let tempMax := fold_left JS.Math_max temps neg_infinity in
  let avgData :=
    fold_left addHour hourlyData
      {| s_precipitation := 0; s_wind := 0; s_humidity := 0; s_uv := 0; s_aqi := 0 |} in
  let count := ofNat (List.length hourlyData) in
  r' <- getRandomInRange (-2) 2 ;;
  ret {| daily_base :=
           {| temp := Math_round dayTemp;
              feelsLike := Math_round (dayTemp + r');
              precipitation := Math_round (s_precipitation avgData / count);
              wind := Math_round (s_wind avgData / count);
              humidity := Math_round (s_humidity avgData / count);
              uv := Math_round (s_uv avgData / count);
              aqi := Math_round (s_aqi avgData / count);
              condition :=
                getConditionForTemp dayTemp (s_precipitation avgData / count);
              description :=
                getConditionDescription
                  (getConditionForTemp dayTemp (s_precipitation avgData / count)) |};
         date := date;
         tempMin := tempMin;
         tempMax := tempMax;
         hourlyData := hourlyData;
         sunrise := "06:30";
         sunset := "18:45" |}.

(** [days] is the number of days asked for, a natural number (7 by default,
    14 from the application). *)
Definition generateDailyForecast (startDate : Date) (days : nat)
  : Eff (list DailyWeather) :=
  baseTemp <- getRandomInRange 15 28 ;;
  forEachM (seq 0 days) (generateDay startDate baseTemp).

End Generators.

(* ================================================================== *)
(** * Properties *)
(* ================================================================== *)

(* ================================================================== *)
(** ** The scorer *)
(* ================================================================== *)

(** The body of [calculateACIS] branches on six comparisons; on every
    branch the result is a closed computation on the constants, and it is
    the record the specification describes. *)
Lemma calculateACIS_unfold :
  forall (w : DailyWeather) (p : ActivityPreferences),
    calculateACIS w p =
      {| score := clamp 1 10 (10 + penaltySum w p);
         factors := expectedFactors w p |}.
Proof.
  intros w p.
  unfold calculateACIS, penaltySum, expectedFactors, tempOutside, windOver,
    precipOver, aqiOver, uvOver, JS.ge, JS.le, JS.gt.
  generalize (idealTempMin p <=? temp w) (temp w <=? idealTempMax p)
    (maxWindSpeed p <? wind w) (maxPrecipitation p <? precipitation w)
    (100 <? aqi w) (8 <? uv w).
  intros [] [] [] [] [] []; vm_compute; reflexivity.
Qed.

(** The five triggers of a day, as booleans to split on. *)
Ltac split_triggers w p :=
  unfold penaltySum, expectedFactors;
  generalize (tempOutside w p) (windOver w p) (precipOver w p)
    (aqiOver w) (uvOver w);
  intros [] [] [] [] [].

(** A label is not among other, different labels. *)
Ltac distinct_label :=
  let H := fresh in
  intros H; repeat (destruct H as [H|H]; [discriminate H|]); exact H.

(** An element of a list of labels is one of the five. *)
Ltac known_label H :=
  repeat (destruct H as [H|H]; [subst; cbn; auto 10|]); contradiction.

(** A mild day scores 10 with no factor; a cold one loses the temperature
    penalty alone. *)
Example calculateACIS_mild_day :
  calculateACIS (sampleDay 20 5 0 30 3) trekking = {| score := 10; factors := [] |}.
Proof. reflexivity. Qed.

Example calculateACIS_cold_day :
  calculateACIS (sampleDay 5 5 0 30 3) trekking
  = {| score := 8;
       factors := [ {| name := "Temperature"; impact := -2; value := 5 |} ] |}.
Proof. reflexivity. Qed.

(** C1. For every daily summary and profile the score is the clamp to
    [1, 10] of 10 plus the sum of the five independent penalties: -2 when the
    temperature is outside [idealTempMin, idealTempMax], -1.5 when the wind
    exceeds maxWindSpeed, -2.5 when the precipitation exceeds
    maxPrecipitation, -1 when aqi > 100 and -0.5 when uv > 8.  In particular
    a day with temp=38, wind=55, precipitation=90, aqi=160, uv=9 scores
    exactly 2.5 against the trekking profile, with the five factors. *)
Theorem calculateACIS_score_formula :
  forall (w : DailyWeather) (p : ActivityPreferences),
    score (calculateACIS w p) = clamp 1 10 (10 + penaltySum w p)
    /\ (temp w = 38 -> wind w = 55 -> precipitation w = 90 ->
        aqi w = 160 -> uv w = 9 ->
        calculateACIS w trekking =
          {| score := 2.5;
             factors :=
               [ {| name := "Temperature"; impact := -2; value := 38 |};
                 {| name := "Wind"; impact := -1.5; value := 55 |};
                 {| name := "Precipitation"; impact := -2.5; value := 90 |};
                 {| name := "Air Quality"; impact := -1; value := 160 |};
                 {| name := "UV Index"; impact := -0.5; value := 9 |} ] |}).
Proof.
  intros w p. split.
  - rewrite calculateACIS_unfold. reflexivity.
  - intros Ht Hw Hp Ha Hu. rewrite calculateACIS_unfold.
    unfold penaltySum, expectedFactors, tempOutside, windOver, precipOver,
      aqiOver, uvOver.
    rewrite Ht, Hw, Hp, Ha, Hu. vm_compute. reflexivity.
Qed.

Lemma calculateACIS_score_formula_witness :
  score (calculateACIS (sampleDay 38 55 90 160 9) trekking)
    = clamp 1 10 (10 + penaltySum (sampleDay 38 55 90 160 9) trekking)
  /\ score (calculateACIS (sampleDay 38 55 90 160 9) trekking) = 2.5
  /\ List.length (factors (calculateACIS (sampleDay 38 55 90 160 9) trekking)) = 5%nat.
Proof.
  destruct (calculateACIS_score_formula (sampleDay 38 55 90 160 9) trekking)
    as [Hformula Hscenario].
  split; [exact Hformula|].
  rewrite (Hscenario eq_refl eq_refl eq_refl eq_refl eq_refl).
  split; reflexivity.
Defined.

(** C5. For every daily summary and profile the score lies in [1, 10]:
    never below 1, whatever the penalties sum to, and never above 10. *)
Theorem calculateACIS_score_bounds :
  forall (w : DailyWeather) (p : ActivityPreferences),
    JS.le 1 (score (calculateACIS w p)) = true
    /\ JS.le (score (calculateACIS w p)) 10 = true.
Proof.
  intros w p. rewrite calculateACIS_unfold. cbn [score].
  split_triggers w p; vm_compute; split; reflexivity.
Qed.

(** C6. The factors are exactly the entries of the triggered rules, in the
    order Temperature, Wind, Precipitation, Air Quality, UV Index: each entry
    carries the rule's constant as impact and the raw field as value; so the
    list has at most five entries, no label twice, only the five labels, and
    no positive impact. *)
Theorem calculateACIS_factors :
  forall (w : DailyWeather) (p : ActivityPreferences),
    let fs := factors (calculateACIS w p) in
    fs = expectedFactors w p
    /\ (List.length fs <= 5)%nat
    /\ NoDup (map name fs)
    /\ incl (map name fs) factorLabels
    /\ Forall (fun f => JS.le (impact f) 0 = true) fs.
Proof.
  intros w p fs. subst fs. rewrite calculateACIS_unfold. cbn [factors].
  split; [reflexivity|].
  split_triggers w p; cbn;
    (split; [lia|]);
    (split; [repeat (constructor; [cbn; distinct_label|]); constructor|]);
    (split; [intros x Hx; cbn in Hx; known_label Hx|]);
    repeat constructor.
Qed.

(* ================================================================== *)
(** ** The window finder as a search over the candidates *)
(* ================================================================== *)

Section Folds.

Context {A B C : Type}.

Lemma fold_left_pointwise (f g : A -> B -> A) (l : list B) :
  (forall a x, In x l -> f a x = g a x) ->
  forall a, fold_left f l a = fold_left g l a.
Proof.
  induction l as [|x l IH]; intros Hfg a; cbn; [reflexivity|].
  rewrite (Hfg a x (or_introl eq_refl)).
  apply IH. intros a' y Hy. apply Hfg. right; exact Hy.
Qed.

Lemma fold_left_flat_map (f : A -> B -> A) (g : C -> list B) (l : list C) :
  forall a,
    fold_left f (flat_map g l) a = fold_left (fun a x => fold_left f (g x) a) l a.
Proof.
  induction l as [|x l IH]; intros a; cbn; [reflexivity|].
  rewrite fold_left_app. apply IH.
Qed.

End Folds.

Lemma findOptimalTimeWindow_search :
  forall hourlyData preferences,
    findOptimalTimeWindow hourlyData preferences
    = search (candidateScore hourlyData preferences).
Proof.
  intros h p. unfold search, candidates, findOptimalTimeWindow.
  rewrite fold_left_flat_map. fold initialWindow.
  apply fold_left_pointwise. intros best start _.
  unfold windowsFrom. rewrite fold_left_flat_map.
  apply fold_left_pointwise. intros b duration _.
  unfold tryWindow. destruct (20 <? start + duration)%nat; reflexivity.
Qed.

Lemma search_pointwise :
  forall sc sc', (forall c, In c candidates -> sc c = sc' c) -> search sc = search sc'.
Proof.
  intros sc sc' H. unfold search.
  apply fold_left_pointwise. intros a c Hc. unfold keepBest, windowOf.
  rewrite (H c Hc). reflexivity.
Qed.

Lemma pair_eqb_eq : forall c d, pair_eqb c d = true -> c = d.
Proof.
  intros [a b] [a' b']. unfold pair_eqb. cbn. intros H.
  apply andb_true_iff in H. destruct H as [H1 H2].
  apply Nat.eqb_eq in H1. apply Nat.eqb_eq in H2. congruence.
Qed.

Lemma forallb_below (f : nat -> bool) (n : nat) :
  forallb f (seq 0 n) = true -> forall k, (k < n)%nat -> f k = true.
Proof.
  intros H k Hk. rewrite forallb_forall in H. apply H.
  apply in_seq. lia.
Qed.

Lemma isCandidate_In : forall s e, isCandidate s e <-> In (s, e) candidates.
Proof.
  intros s e. split.
  - intros (Hs & He & H20).
    assert (Hall : forallb (fun s => forallb (fun e =>
              implb (isCandidateb s e) (existsb (pair_eqb (s, e)) candidates))
              (seq 0 21)) (seq 0 18) = true) by (vm_compute; reflexivity).
    pose proof (forallb_below _ _ (forallb_below _ _ Hall s ltac:(lia)) e ltac:(lia)) as Hse.
    cbn beta in Hse.
    assert (Hc : isCandidateb s e = true).
    { unfold isCandidateb. repeat (apply andb_true_iff; split); apply Nat.leb_le; lia. }
    rewrite Hc in Hse. cbn [implb] in Hse.
    apply existsb_exists in Hse. destruct Hse as (d & Hd & Heq).
    apply pair_eqb_eq in Heq. subst d. exact Hd.
  - intros Hin.
    assert (Hall : forallb (fun c => isCandidateb (fst c) (snd c)) candidates = true)
      by (vm_compute; reflexivity).
    rewrite forallb_forall in Hall. specialize (Hall _ Hin). cbn in Hall.
    unfold isCandidateb in Hall.
    repeat (apply andb_true_iff in Hall; destruct Hall as [Hall ?]).
    repeat match goal with H : (_ <=? _)%nat = true |- _ => apply Nat.leb_le in H end.
    unfold isCandidate. lia.
Qed.

(* ================================================================== *)
(** ** Every candidate score is one of the enumerated scores *)
(* ================================================================== *)

Lemma hourStep_stepWith :
  forall p score (h : HourlyWeather),
    hourStep p score h = stepWith (tempBad p h, windBad p h, precipBad p h) score.
Proof. reflexivity. Qed.

Lemma triggerCases_all : forall t, In t triggerCases.
Proof. intros [[[] []] []]; cbn; auto 10. Qed.

Lemma nextScores_step :
  forall R s t, In s R -> In (stepWith t s) (nextScores R).
Proof.
  intros R s t Hs. unfold nextScores. apply nodup_In.
  apply in_flat_map. exists s. split; [exact Hs|].
  apply (in_map (fun t => stepWith t s)). apply triggerCases_all.
Qed.

Lemma scoresAfter_S :
  forall k s, In s (scoresAfter k) -> In s (scoresAfter (S k)).
Proof.
  intros k s Hs. exact (nextScores_step _ s (false, false, false) Hs).
Qed.

Lemma scoresAfter_le :
  forall k n s, (k <= n)%nat -> In s (scoresAfter k) -> In s (scoresAfter n).
Proof.
  intros k n s Hle. induction Hle; intros Hs; [exact Hs|].
  apply scoresAfter_S. apply IHHle. exact Hs.
Qed.

Lemma fold_hourStep_scores :
  forall p (hs : list HourlyWeather) k s,
    In s (scoresAfter k) ->
    In (fold_left (hourStep p) hs s) (scoresAfter (k + List.length hs)).
Proof.
  intros p hs. induction hs as [|h hs IH]; intros k s Hs; cbn [fold_left List.length].
  - rewrite Nat.add_0_r. exact Hs.
  - replace (k + S (List.length hs))%nat with (S k + List.length hs)%nat by lia.
    apply IH. rewrite hourStep_stepWith. apply nextScores_step. exact Hs.
Qed.

Lemma slice_length :
  forall (A : Type) (l : list A) s e,
    List.length (JS.slice l s e)
    = (Nat.min e (List.length l) - Nat.min s (List.length l))%nat.
Proof.
  intros A l s e. unfold JS.slice.
  rewrite length_firstn, length_skipn. lia.
Qed.

Lemma windowScores_eq : windowScores = scoresAfter 8.
Proof. vm_compute. reflexivity. Qed.

Lemma candidateScore_reached :
  forall h p c, In c candidates ->
    In (candidateScore h p c) (scoresAfter (snd c - fst c)).
Proof.
  intros h p [s e] Hc. apply isCandidate_In in Hc. destruct Hc as (Hs & He & H20).
  unfold candidateScore. cbn [fst snd].
  apply scoresAfter_le with (k := (0 + List.length (JS.slice h s e))%nat).
  - rewrite slice_length. lia.
  - apply fold_hourStep_scores. cbn. left; reflexivity.
Qed.

Lemma candidateScore_windowScores :
  forall h p c, In c candidates -> In (candidateScore h p c) windowScores.
Proof.
  intros h p c Hc. rewrite windowScores_eq.
  apply scoresAfter_le with (k := (snd c - fst c)%nat).
  - destruct c as [s e]. apply isCandidate_In in Hc.
    cbn. destruct Hc as (Hs & He & H20). lia.
  - apply candidateScore_reached. exact Hc.
Qed.

(* ================================================================== *)
(** ** Comparing scores by their keys *)
(* ================================================================== *)

Lemma keyed_order :
  (let k := keyed validScores in forallb (fun a => forallb (orderAgrees a) k) k) = true.
Proof. vm_compute. reflexivity. Qed.

Lemma scoreKey_order :
  forall x y, In x validScores -> In y validScores ->
    JS.gt x y = (scoreKey y <? scoreKey x)%Z
    /\ (x =? y) = (scoreKey x =? scoreKey y)%Z
    /\ JS.le x y = (scoreKey x <=? scoreKey y)%Z.
Proof.
  intros x y Hx Hy. pose proof keyed_order as H. cbv zeta in H.
  rewrite forallb_forall in H.
  specialize (H (x, scoreKey x) (in_map (fun x => (x, scoreKey x)) _ _ Hx)).
  rewrite forallb_forall in H.
  specialize (H (y, scoreKey y) (in_map (fun x => (x, scoreKey x)) _ _ Hy)).
  unfold orderAgrees in H.
  apply andb_true_iff in H. destruct H as [H H3].
  apply andb_true_iff in H. destruct H as [H1 H2].
  apply Bool.eqb_prop in H1, H2, H3. auto.
Qed.

Lemma gt_scoreKey :
  forall x y, In x validScores -> In y validScores ->
    JS.gt x y = (scoreKey y <? scoreKey x)%Z.
Proof. intros x y Hx Hy. apply (scoreKey_order x y Hx Hy). Qed.

(** Bounds of the reachable scores, each checked on the enumeration. *)
Lemma windowScores_bounds :
  forall x, In x windowScores ->
    (scoreKey 0%float < scoreKey x)%Z
    /\ JS.gt x 0 = true
    /\ JS.le x 10 = true
    /\ JS.le 2.799999999999998 x = true.
Proof.
  assert (H : forallb (fun x => (scoreKey 0%float <? scoreKey x)%Z && JS.gt x 0
                                && JS.le x 10 && JS.le 2.799999999999998 x)
                windowScores = true) by (vm_compute; reflexivity).
  rewrite forallb_forall in H. intros x Hx. specialize (H x Hx).
  repeat (apply andb_true_iff in H; destruct H as [H ?]).
  apply Z.ltb_lt in H. auto.
Qed.

(** After at most three hours a score is still at least
    7.299999999999999, and a reachable score at or above that key is at
    least 2.8. *)
Lemma shortWindow_bound :
  forall x, In x (scoresAfter 3) -> (scoreKey 7.299999999999999%float <= scoreKey x)%Z.
Proof.
  assert (H : forallb (fun x => (scoreKey 7.299999999999999%float <=? scoreKey x)%Z)
                (scoresAfter 3) = true) by (vm_compute; reflexivity).
  rewrite forallb_forall in H. intros x Hx. apply Z.leb_le. exact (H x Hx).
Qed.

Lemma highScore_bound :
  forall x, In x windowScores ->
    (scoreKey 7.299999999999999%float <= scoreKey x)%Z ->
    JS.le 7.299999999999999 x = true /\ JS.le 2.8 x = true.
Proof.
  assert (H : forallb (fun x => implb (scoreKey 7.299999999999999%float <=? scoreKey x)%Z
                                  (JS.le 7.299999999999999 x && JS.le 2.8 x))
                windowScores = true) by (vm_compute; reflexivity).
  rewrite forallb_forall in H. intros x Hx Hk. specialize (H x Hx).
  apply Z.leb_le in Hk. rewrite Hk in H. cbn [implb] in H.
  apply andb_true_iff in H. exact H.
Qed.

(* ================================================================== *)
(** ** The search keeps the first maximum *)
(* ================================================================== *)

Section FirstMaximum.

Variable sc : nat * nat -> JS.number.

Lemma keepBest_first_max :
  forall (l : list (nat * nat)) (best : Window),
    In (wscore best) validScores ->
    (forall c, In c l -> In (sc c) validScores) ->
    (fold_left (keepBest sc) l best = best
     /\ forall c, In c l -> (scoreKey (sc c) <= scoreKey (wscore best))%Z)
    \/ (exists l1 c l2,
          l = (l1 ++ c :: l2)%list
          /\ fold_left (keepBest sc) l best = windowOf sc c
          /\ (scoreKey (wscore best) < scoreKey (sc c))%Z
          /\ (forall x, In x l1 -> (scoreKey (sc x) < scoreKey (sc c))%Z)
          /\ (forall x, In x l2 -> (scoreKey (sc x) <= scoreKey (sc c))%Z)).
Proof.
  induction l as [|a l IH]; intros best Hbest Hl.
  - left. split; [reflexivity|]. intros c [].
  - cbn [fold_left]. unfold keepBest at 2 4.
    assert (Ha : In (sc a) validScores) by (apply Hl; left; reflexivity).
    assert (Hl' : forall c, In c l -> In (sc c) validScores)
      by (intros c Hc; apply Hl; right; exact Hc).
    rewrite (gt_scoreKey _ _ Ha Hbest).
    destruct (scoreKey (wscore best) <? scoreKey (sc a))%Z eqn:E.
    + apply Z.ltb_lt in E. right.
      destruct (IH (windowOf sc a) Ha Hl') as [[Hr Hle] | (l1 & c & l2 & Hsplit & Hr & Hlt & H1 & H2)].
      * exists [], a, l. cbn in Hle |- *. repeat split; auto. intros x [].
      * exists (a :: l1), c, l2. cbn in Hlt. subst l. repeat split; auto.
        -- lia.
        -- intros x [<- | Hx]; [exact Hlt | apply H1; exact Hx].
    + apply Z.ltb_ge in E.
      destruct (IH best Hbest Hl') as [[Hr Hle] | (l1 & c & l2 & Hsplit & Hr & Hlt & H1 & H2)].
      * left. split; [exact Hr|]. intros c [<- | Hc]; [exact E | apply Hle; exact Hc].
      * right. exists (a :: l1), c, l2. subst l. repeat split; auto.
        intros x [<- | Hx]; [lia | apply H1; exact Hx].
Qed.

Hypothesis sc_reached : forall c, In c candidates -> In (sc c) windowScores.

Lemma search_first_max :
  exists l1 c l2,
    candidates = (l1 ++ c :: l2)%list
    /\ search sc = windowOf sc c
    /\ (forall x, In x l1 -> (scoreKey (sc x) < scoreKey (sc c))%Z)
    /\ (forall x, In x l2 -> (scoreKey (sc x) <= scoreKey (sc c))%Z).
Proof.
  assert (Hv : forall c, In c candidates -> In (sc c) validScores)
    by (intros c Hc; right; apply sc_reached; exact Hc).
  destruct (keepBest_first_max candidates initialWindow (or_introl eq_refl) Hv)
    as [[_ Hle] | (l1 & c & l2 & Hsplit & Hr & _ & H1 & H2)].
  - exfalso.
    assert (Hfirst : In (6, 9)%nat candidates) by (vm_compute; left; reflexivity).
    specialize (Hle _ Hfirst). cbn [wscore initialWindow] in Hle.
    pose proof (windowScores_bounds _ (sc_reached _ Hfirst)) as (Hpos & _). lia.
  - exists l1, c, l2. auto.
Qed.

End FirstMaximum.

(* ================================================================== *)
(** ** Comparisons of doubles *)
(* ================================================================== *)

Lemma SFcompare_antisym :
  forall x y, SFcompare y x = option_map CompOpp (SFcompare x y).
Proof.
  intros x y.
  destruct x as [sx | sx | | sx mx ex], y as [sy | sy | | sy my ey]; cbn;
    try reflexivity;
    try (match goal with b : bool |- _ => destruct b end; reflexivity);
    destruct sx, sy; cbn; try reflexivity.
  all: rewrite (Z.compare_antisym ex ey);
    destruct (ex ?= ey)%Z eqn:E; cbn; try reflexivity;
    rewrite (Pos.compare_cont_antisym mx my Eq); cbn;
    rewrite ?CompOpp_involutive; reflexivity.
Qed.

Lemma leb_not_ltb : forall x y : float, (x <=? y) = true -> (y <? x) = false.
Proof.
  intros x y. rewrite leb_spec, ltb_spec. unfold SFleb, SFltb.
  rewrite (SFcompare_antisym (Prim2SF x) (Prim2SF y)).
  destruct (SFcompare (Prim2SF x) (Prim2SF y)) as [[]|]; cbn; congruence.
Qed.

Lemma eqb_not_ltb : forall x y : float, (x =? y) = true -> (y <? x) = false.
Proof.
  intros x y. rewrite eqb_spec, ltb_spec. unfold SFeqb, SFltb.
  rewrite (SFcompare_antisym (Prim2SF x) (Prim2SF y)).
  destruct (SFcompare (Prim2SF x) (Prim2SF y)) as [[]|]; cbn; congruence.
Qed.

(* ================================================================== *)
(** ** Hours within the bounds leave the score unchanged *)
(* ================================================================== *)

Lemma withinBounds_hourStep :
  forall p h score, withinBounds p h = true -> hourStep p score h = score.
Proof.
  intros p h score H. unfold withinBounds in H.
  repeat (apply andb_true_iff in H; destruct H as [H ?]).
  unfold hourStep, JS.lt, JS.gt.
  rewrite (leb_not_ltb _ _ H), (leb_not_ltb (temp h) _),
    (leb_not_ltb (wind h) _), (leb_not_ltb (precipitation h) _) by assumption.
  reflexivity.
Qed.

Lemma withinBounds_fold :
  forall p hs score,
    Forall (fun h => withinBounds p h = true) hs ->
    fold_left (hourStep p) hs score = score.
Proof.
  intros p hs score H. induction H as [|h hs Hh _ IH]; cbn; [reflexivity|].
  rewrite (withinBounds_hourStep _ _ _ Hh). exact IH.
Qed.

Lemma In_slice :
  forall (A : Type) (l : list A) s e x, In x (JS.slice l s e) -> In x l.
Proof.
  intros A l s e x H. unfold JS.slice in H.
  rewrite <- (firstn_skipn s l). apply in_or_app. right.
  rewrite <- (firstn_skipn (e - s) (skipn s l)). apply in_or_app. left. exact H.
Qed.

Lemma slice_app :
  forall (A : Type) (l pad : list A) s e,
    exists rest,
      JS.slice (l ++ pad)%list s e = (JS.slice l s e ++ rest)%list
      /\ forall x, In x rest -> In x pad.
Proof.
  intros A l pad s e. unfold JS.slice. rewrite skipn_app, firstn_app.
  eexists. split; [reflexivity|].
  intros x Hx. apply (In_slice A pad (s - List.length l) (e - s - List.length (skipn s l) + (s - List.length l))).
  unfold JS.slice.
  replace (e - s - List.length (skipn s l) + (s - List.length l) - (s - List.length l))%nat
    with (e - s - List.length (skipn s l))%nat by lia.
  exact Hx.
Qed.

Lemma candidateScore_calm :
  forall hs p c,
    Forall (fun h => withinBounds p h = true) hs -> candidateScore hs p c = 10.
Proof.
  intros hs p c H. unfold candidateScore. apply withinBounds_fold.
  apply Forall_forall. intros x Hx. rewrite Forall_forall in H.
  apply H. exact (In_slice _ _ _ _ _ Hx).
Qed.

Lemma candidateScore_padded :
  forall hs pad p c,
    Forall (fun h => withinBounds p h = true) pad ->
    candidateScore (hs ++ pad) p c = candidateScore hs p c.
Proof.
  intros hs pad p c H. unfold candidateScore.
  destruct (slice_app _ hs pad (fst c) (snd c)) as (rest & -> & Hrest).
  rewrite fold_left_app. apply withinBounds_fold.
  apply Forall_forall. intros x Hx. rewrite Forall_forall in H.
  apply H. apply Hrest. exact Hx.
Qed.

Lemma search_constant_10 :
  search (fun _ => 10) = {| startHour := 6; endHour := 9; wscore := 10 |}.
Proof. vm_compute. reflexivity. Qed.

(* ================================================================== *)
(** ** The iteration order of the candidates *)
(* ================================================================== *)

Lemma orderedb_split :
  forall l l1 c l2,
    orderedb l = true -> l = (l1 ++ c :: l2)%list ->
    forall x, In x l2 -> beforeb c x = true.
Proof.
  intros l l1. revert l. induction l1 as [|a l1 IH]; intros l c l2 Hord -> x Hx.
  - cbn in Hord. apply andb_true_iff in Hord. destruct Hord as [Hall _].
    rewrite forallb_forall in Hall. apply Hall. exact Hx.
  - cbn in Hord. apply andb_true_iff in Hord. destruct Hord as [_ Hord].
    exact (IH _ c l2 Hord eq_refl x Hx).
Qed.

Lemma candidates_ordered : orderedb candidates = true.
Proof. vm_compute. reflexivity. Qed.

Lemma beforeb_lex :
  forall c d, beforeb c d = true ->
    (fst c < fst d \/ (fst c = fst d /\ snd c < snd d))%nat.
Proof.
  intros c d H. unfold beforeb in H. apply orb_true_iff in H.
  destruct H as [H | H].
  - left. apply Nat.ltb_lt. exact H.
  - right. apply andb_true_iff in H. destruct H as [H1 H2].
    apply Nat.eqb_eq in H1. apply Nat.ltb_lt in H2. auto.
Qed.

(* ================================================================== *)
(** ** The window finder *)
(* ================================================================== *)

(** The result of the search, in the terms the theorems below use. *)
Lemma findOptimalTimeWindow_result :
  forall h p,
    exists l1 c l2,
      candidates = (l1 ++ c :: l2)%list
      /\ findOptimalTimeWindow h p = windowOf (candidateScore h p) c
      /\ (forall x, In x l1 ->
            (scoreKey (candidateScore h p x) < scoreKey (candidateScore h p c))%Z)
      /\ (forall x, In x l2 ->
            (scoreKey (candidateScore h p x) <= scoreKey (candidateScore h p c))%Z).
Proof.
  intros h p. rewrite findOptimalTimeWindow_search.
  apply search_first_max. apply candidateScore_windowScores.
Qed.

(** C2, as stated, at a concrete day: twenty-four identical hours at 20
    degrees, wind 5, no rain, all within the trekking profile.  The finder
    returns the window 6..9 with score 10, not 6..14. *)
Lemma findOptimalTimeWindow_calm_day_counterexample :
  List.length (sameAllDay 20 5 0) = 24%nat
  /\ Forall (fun h => hourly_base h = sampleCondition 20 5 0 30 3) (sameAllDay 20 5 0)
  /\ Forall (fun h => withinBounds trekking h = true) (sameAllDay 20 5 0)
  /\ findOptimalTimeWindow (sameAllDay 20 5 0) trekking
     = {| startHour := 6; endHour := 9; wscore := 10 |}
  /\ findOptimalTimeWindow (sameAllDay 20 5 0) trekking
     <> {| startHour := 6; endHour := 14; wscore := 10 |}.
Proof.
  split; [reflexivity|].
  split; [|split].
  1, 2: apply Forall_forall; intros h Hh; unfold sameAllDay in Hh;
    apply in_map_iff in Hh; destruct Hh as (n & <- & _); reflexivity.
  split; [vm_compute; reflexivity|].
  vm_compute. intros H. discriminate H.
Qed.

(** C2, amended. When every hourly sample is within the bounds of the
    profile (in particular for twenty-four identical such samples), every
    candidate scores 10 and the finder returns the first one enumerated:
    start 6, end 9, score 10. *)
Theorem findOptimalTimeWindow_calm_day :
  forall (hours : list HourlyWeather) (p : ActivityPreferences),
    Forall (fun h => withinBounds p h = true) hours ->
    findOptimalTimeWindow hours p
    = {| startHour := 6; endHour := 9; wscore := 10 |}.
Proof.
  intros hours p H. rewrite findOptimalTimeWindow_search.
  rewrite <- search_constant_10. apply search_pointwise.
  intros c _. apply candidateScore_calm. exact H.
Qed.

Lemma findOptimalTimeWindow_calm_day_witness :
  Forall (fun h => withinBounds trekking h = true) (sameAllDay 20 5 0)
  /\ findOptimalTimeWindow (sameAllDay 20 5 0) trekking
     = {| startHour := 6; endHour := 9; wscore := 10 |}.
Proof.
  assert (H : Forall (fun h => withinBounds trekking h = true) (sameAllDay 20 5 0)).
  { apply Forall_forall. intros h Hh. unfold sameAllDay in Hh.
    apply in_map_iff in Hh. destruct Hh as (n & <- & _). reflexivity. }
  split; [exact H|].
  apply (findOptimalTimeWindow_calm_day (sameAllDay 20 5 0) trekking). exact H.
Defined.

(** C3. The returned window is one of the enumerated candidates (start in
    6..17, duration in 3..8, end = start + duration <= 20) and carries that
    candidate's score; no candidate scores more; and a candidate that ties
    with it comes no earlier in the iteration order, that is, has a larger
    start, or the same start and no shorter duration.  A candidate whose
    score equals the current best's never replaces it. *)
Theorem findOptimalTimeWindow_first_maximum :
  forall (hourlyData : list HourlyWeather) (preferences : ActivityPreferences),
    let r := findOptimalTimeWindow hourlyData preferences in
    let sc := candidateScore hourlyData preferences in
    isCandidate (startHour r) (endHour r)
    /\ wscore r = sc (startHour r, endHour r)
    /\ (forall s e, isCandidate s e ->
          JS.le (sc (s, e)) (wscore r) = true
          /\ JS.gt (sc (s, e)) (wscore r) = false
          /\ ((sc (s, e) =? wscore r) = true ->
              (startHour r < s \/ (startHour r = s /\ endHour r <= e))%nat))
    /\ (forall (best : Window) (start duration : nat),
          (sc (start, (start + duration)%nat) =? wscore best) = true ->
          tryWindow hourlyData preferences start best duration = best).
Proof.
  intros h p r sc. subst r.
  destruct (findOptimalTimeWindow_result h p) as (l1 & c & l2 & Hsplit & Hr & H1 & H2).
  fold sc in Hr, H1, H2. rewrite Hr. cbn [startHour endHour wscore windowOf].
  assert (Hc : In c candidates) by (rewrite Hsplit; apply in_elt).
  assert (Hvc : In (sc c) validScores)
    by (right; apply candidateScore_windowScores; exact Hc).
  split; [apply isCandidate_In; rewrite <- surjective_pairing; exact Hc|].
  split; [rewrite <- surjective_pairing; reflexivity|].
  split.
  - intros s e Hse. apply isCandidate_In in Hse.
    assert (Hvx : In (sc (s, e)) validScores)
      by (right; apply candidateScore_windowScores; exact Hse).
    destruct (scoreKey_order _ _ Hvx Hvc) as (Hgt & Heq & Hle).
    rewrite Hgt, Heq, Hle.
    rewrite Hsplit in Hse. apply in_app_or in Hse.
    destruct Hse as [Hx | [Hx | Hx]].
    + specialize (H1 _ Hx). split; [apply Z.leb_le; lia|].
      split; [apply Z.ltb_ge; lia|].
      intros E. apply Z.eqb_eq in E. lia.
    + subst c. cbn [fst snd]. split; [apply Z.leb_le; lia|].
      split; [apply Z.ltb_ge; lia|]. intros _. right. lia.
    + specialize (H2 _ Hx). split; [apply Z.leb_le; lia|].
      split; [apply Z.ltb_ge; lia|].
      intros _.
      pose proof (beforeb_lex _ _ (orderedb_split _ _ _ _ candidates_ordered Hsplit _ Hx)) as Hlex.
      cbn [fst snd] in Hlex. lia.
  - intros best start duration E. unfold tryWindow.
    destruct (20 <? start + duration)%nat; [reflexivity|].
    change (fold_left (hourStep p) (JS.slice h start (start + duration)) 10)
      with (sc (start, (start + duration)%nat)).
    unfold JS.gt. rewrite (eqb_not_ltb _ _ E). reflexivity.
Qed.

(** C3 on a day of twenty-four hours that all trigger the three penalties:
    the candidate 6..14 does not beat the returned window. *)
Lemma findOptimalTimeWindow_first_maximum_witness :
  isCandidate 6 14
  /\ JS.le (candidateScore (sameAllDay 38 55 90) trekking (6, 14)%nat)
          (wscore (findOptimalTimeWindow (sameAllDay 38 55 90) trekking)) = true.
Proof.
  assert (H : isCandidate 6 14) by (unfold isCandidate; lia).
  split; [exact H|].
  destruct (findOptimalTimeWindow_first_maximum (sameAllDay 38 55 90) trekking)
    as (_ & _ & Hmax & _).
  exact (proj1 (Hmax 6%nat 14%nat H)).
Defined.

(** C4. The returned window satisfies 6 <= startHour, endHour <= 20 and
    3 <= endHour - startHour <= 8, for every hourly array and profile; the
    initial window 9..17 satisfies the same bounds. *)
Theorem findOptimalTimeWindow_window_bounds :
  forall (hourlyData : list HourlyWeather) (preferences : ActivityPreferences),
    let r := findOptimalTimeWindow hourlyData preferences in
    ((6 <= startHour r)%nat /\ (endHour r <= 20)%nat
     /\ (3 <= endHour r - startHour r <= 8)%nat)
    /\ ((6 <= startHour initialWindow)%nat /\ (endHour initialWindow <= 20)%nat
        /\ (3 <= endHour initialWindow - startHour initialWindow <= 8)%nat).
Proof.
  intros h p r. subst r. split; [|cbn; lia].
  destruct (findOptimalTimeWindow_result h p) as (l1 & c & l2 & Hsplit & Hr & _ & _).
  rewrite Hr. cbn [startHour endHour windowOf].
  assert (Hc : In c candidates) by (rewrite Hsplit; apply in_elt).
  rewrite (surjective_pairing c) in Hc. apply isCandidate_In in Hc.
  unfold isCandidate in Hc. lia.
Qed.

(** C9, as stated, at a concrete day: on twenty-four hours that trigger the
    three penalties, the candidate 6..14 scores 2.799999999999998, the result
    of twenty-four rounded subtractions, which is below 2.8. *)
Lemma candidate_score_below_2_8_counterexample :
  isCandidate 6 14
  /\ candidateScore (sameAllDay 38 55 90) trekking (6, 14)%nat = 2.799999999999998
  /\ JS.le 2.8 (candidateScore (sameAllDay 38 55 90) trekking (6, 14)%nat) = false.
Proof.
  split; [unfold isCandidate; lia|].
  split; vm_compute; reflexivity.
Qed.

(** C9, amended. The finder never returns the initial window 9..17 with
    score 0: every candidate's score is positive, at least
    2.799999999999998 and at most 10, the first candidate (start 6,
    duration 3) always replaces the initial window, and the returned score
    is at least 2.8 (indeed at least 7.299999999999999) and at most 10. *)
Theorem findOptimalTimeWindow_never_initial :
  forall (hourlyData : list HourlyWeather) (preferences : ActivityPreferences),
    let r := findOptimalTimeWindow hourlyData preferences in
    let sc := candidateScore hourlyData preferences in
    r <> initialWindow
    /\ (forall s e, isCandidate s e ->
          JS.gt (sc (s, e)) 0 = true
          /\ JS.le 2.799999999999998 (sc (s, e)) = true
          /\ JS.le (sc (s, e)) 10 = true)
    /\ tryWindow hourlyData preferences 6 initialWindow 3
       = {| startHour := 6; endHour := 9; wscore := sc (6, 9)%nat |}
    /\ JS.le 2.8 (wscore r) = true
    /\ JS.le 7.299999999999999 (wscore r) = true
    /\ JS.le (wscore r) 10 = true.
Proof.
  intros h p r sc. subst r.
  assert (Hall : forall s e, isCandidate s e ->
            JS.gt (sc (s, e)) 0 = true
            /\ JS.le 2.799999999999998 (sc (s, e)) = true
            /\ JS.le (sc (s, e)) 10 = true).
  { intros s e Hse. apply isCandidate_In in Hse.
    pose proof (windowScores_bounds _ (candidateScore_windowScores h p _ Hse)) as H.
    tauto. }
  assert (Hfirst : In (6, 9)%nat candidates) by (vm_compute; left; reflexivity).
  destruct (findOptimalTimeWindow_result h p) as (l1 & c & l2 & Hsplit & Hr & H1 & H2).
  fold sc in Hr, H1, H2. rewrite Hr.
  assert (Hc : In c candidates) by (rewrite Hsplit; apply in_elt).
  pose proof (candidateScore_windowScores h p _ Hc) as Hwc. fold sc in Hwc.
  pose proof (windowScores_bounds _ Hwc) as (Hpos & Hgt0 & Hle10 & _).
  assert (Hhigh : (scoreKey 7.299999999999999%float <= scoreKey (sc c))%Z).
  { pose proof (shortWindow_bound _ (candidateScore_reached h p _ Hfirst)) as H69.
    fold sc in H69. cbn [fst snd] in H69.
    rewrite Hsplit in Hfirst. apply in_app_or in Hfirst.
    destruct Hfirst as [Hx | [Hx | Hx]].
    - specialize (H1 _ Hx). lia.
    - subst c. exact H69.
    - specialize (H2 _ Hx). lia. }
  destruct (highScore_bound _ Hwc Hhigh) as [H73 H28].
  split.
  - intros E. apply (f_equal wscore) in E. cbn [wscore windowOf initialWindow] in E.
    rewrite E in Hpos. lia.
  - split; [exact Hall|]. split.
    + unfold tryWindow. cbn [Nat.add Nat.ltb Nat.leb].
      change (fold_left (hourStep p) (JS.slice h 6 9) 10) with (sc (6, 9)%nat).
      destruct (Hall 6%nat 9%nat ltac:(unfold isCandidate; lia)) as (Hgt & _).
      cbn [wscore initialWindow]. rewrite Hgt. reflexivity.
    + cbn [wscore windowOf]. auto.
Qed.

(** C9, amended, on the same day: the candidate 6..14 scores more than 0
    and the result is not the initial window. *)
Lemma findOptimalTimeWindow_never_initial_witness :
  isCandidate 6 14
  /\ JS.gt (candidateScore (sameAllDay 38 55 90) trekking (6, 14)%nat) 0 = true
  /\ findOptimalTimeWindow (sameAllDay 38 55 90) trekking <> initialWindow.
Proof.
  assert (H : isCandidate 6 14) by (unfold isCandidate; lia).
  split; [exact H|].
  destruct (findOptimalTimeWindow_never_initial (sameAllDay 38 55 90) trekking)
    as (Hne & Hall & _).
  split; [exact (proj1 (Hall 6%nat 14%nat H)) | exact Hne].
Defined.

(** C8. For every hourly array, of any length, the finder is defined and
    returns one of the enumerated windows.  A slice never faults: it has
    exactly the hours that exist between its bounds, none when the array
    ends before its start, and then the candidate keeps the score 10.  The
    missing hours cost nothing: the result is the one obtained after
    completing the array with hours that are within the bounds of the
    profile.  On the empty array the result is the window 6..9 with score
    10. *)
Theorem findOptimalTimeWindow_short_arrays :
  forall (hourlyData : list HourlyWeather) (preferences : ActivityPreferences),
    (exists w, findOptimalTimeWindow hourlyData preferences = w
               /\ isCandidate (startHour w) (endHour w))
    /\ (forall s e,
          List.length (JS.slice hourlyData s e)
          = (Nat.min e (List.length hourlyData) - Nat.min s (List.length hourlyData))%nat)
    /\ (forall c, (List.length hourlyData <= fst c)%nat ->
          candidateScore hourlyData preferences c = 10)
    /\ (forall pad,
          Forall (fun h => withinBounds preferences h = true) pad ->
          findOptimalTimeWindow (hourlyData ++ pad) preferences
          = findOptimalTimeWindow hourlyData preferences)
    /\ findOptimalTimeWindow [] preferences
       = {| startHour := 6; endHour := 9; wscore := 10 |}.
Proof.
  intros h p. split.
  - eexists. split; [reflexivity|].
    destruct (findOptimalTimeWindow_result h p) as (l1 & c & l2 & Hsplit & Hr & _ & _).
    rewrite Hr. cbn [startHour endHour windowOf].
    apply isCandidate_In. rewrite <- surjective_pairing.
    rewrite Hsplit. apply in_elt.
  - split; [intros s e; apply slice_length|]. split.
    + intros c Hlen. unfold candidateScore, JS.slice.
      rewrite skipn_all2 by exact Hlen. rewrite firstn_nil. reflexivity.
    + split.
      * intros pad Hpad. rewrite !findOptimalTimeWindow_search.
        apply search_pointwise. intros c _.
        apply candidateScore_padded. exact Hpad.
      * rewrite findOptimalTimeWindow_search, <- search_constant_10.
        apply search_pointwise. intros c _.
        apply candidateScore_calm. constructor.
Qed.

Lemma findOptimalTimeWindow_short_arrays_witness :
  Forall (fun h => withinBounds trekking h = true) (sameAllDay 20 5 0)
  /\ findOptimalTimeWindow
       (firstn 7 (sameAllDay 38 55 90) ++ sameAllDay 20 5 0) trekking
     = findOptimalTimeWindow (firstn 7 (sameAllDay 38 55 90)) trekking.
Proof.
  assert (H : Forall (fun h => withinBounds trekking h = true) (sameAllDay 20 5 0)).
  { apply Forall_forall. intros h Hh. unfold sameAllDay in Hh.
    apply in_map_iff in Hh. destruct Hh as (n & <- & _). reflexivity. }
  split; [exact H|].
  destruct (findOptimalTimeWindow_short_arrays (firstn 7 (sameAllDay 38 55 90)) trekking)
    as (_ & _ & _ & Hpad & _).
  apply Hpad. exact H.
Defined.

(* ================================================================== *)
(** ** The profile lookup *)
(* ================================================================== *)

Lemma getActivityPreferences_known :
  forall activityName p,
    ownProperty (JS.toLowerCase activityName) activityDefaults = Some p ->
    getActivityPreferences activityName = VProfile p.
Proof.
  intros activityName p H. unfold getActivityPreferences, getProperty.
  rewrite H. reflexivity.
Qed.

Lemma getActivityPreferences_fallback :
  forall activityName,
    ownProperty (JS.toLowerCase activityName) activityDefaults = None ->
    existsb (String.eqb (JS.toLowerCase activityName)) Object_prototype_keys = false ->
    getActivityPreferences activityName = VProfile trekking.
Proof.
  intros activityName H1 H2. unfold getActivityPreferences, getProperty at 1.
  rewrite H1, H2. reflexivity.
Qed.

Lemma getActivityPreferences_defined :
  forall activityName, truthy (getActivityPreferences activityName) = true.
Proof.
  intros activityName. unfold getActivityPreferences, js_or.
  destruct (truthy (getProperty (JS.toLowerCase activityName))) eqn:E;
    [exact E | reflexivity].
Qed.

Example getActivityPreferences_beach_day :
  getActivityPreferences "Beach DAY"
  = VProfile {| idealTempMin := 22; idealTempMax := 35;
                maxWindSpeed := 25; maxPrecipitation := 5 |}.
Proof. reflexivity. Qed.

(** C7. The name "constructor" is a string whose lowercasing is none of the
    ten activity names, yet the lookup does not fall back to the trekking
    profile: the read [activityDefaults["constructor"]] finds the member
    that every object inherits, which is truthy, so it is returned.  A day
    that scores 10 for trekking then scores 8, the reads of the four profile
    fields giving no number.  A name that is neither in the table nor
    inherited, such as "underwater basket weaving", does get the trekking
    profile. *)
Theorem getActivityPreferences_inherited_name :
  ownProperty (JS.toLowerCase "constructor") activityDefaults = None
  /\ getActivityPreferences "constructor" = VInherited "constructor"
  /\ getActivityPreferences "constructor" <> VProfile trekking
  /\ getActivityPreferences "underwater basket weaving" = VProfile trekking
  /\ score (calculateACIS (sampleDay 20 5 0 30 3)
              (readPreferences (getActivityPreferences "constructor"))) = 8
  /\ score (calculateACIS (sampleDay 20 5 0 30 3) trekking) = 10.
Proof.
  split; [reflexivity|]. split; [reflexivity|].
  split; [intros H; discriminate H|].
  split; [reflexivity|]. split; vm_compute; reflexivity.
Qed.

(* ================================================================== *)
(** ** Determinism *)
(* ================================================================== *)

Lemma float_0_neq_1 : (0 : float) <> 1.
Proof.
  intros H. assert (E : (0 =? 0) = (0 =? 1)) by (rewrite <- H; reflexivity).
  vm_compute in E. discriminate E.
Qed.

(** A function of the file that draws a random number does depend on the
    world it is called in. *)
Lemma getRandomInRange_depends_on_world :
  exists w1 w2,
    fst (getRandomInRange 0 1 w1) <> fst (getRandomInRange 0 1 w2).
Proof.
  exists {| randoms := fun _ => 0; now := 0%Z |},
         {| randoms := fun _ => 1; now := 0%Z |}.
  vm_compute. exact float_0_neq_1.
Qed.

Lemma nth_error_last :
  forall (l : list Obj) (o : Obj), nth_error (l ++ [o]) (List.length l) = Some o.
Proof.
  intros l o. rewrite nth_error_app2, Nat.sub_diag by lia. reflexivity.
Qed.

Lemma updateAt_last :
  forall (l : list Obj) (o o' : Obj),
    updateAt (List.length l) o' (l ++ [o]) = (l ++ [o'])%list.
Proof.
  induction l as [|x l IH]; intros o o'; cbn; [reflexivity|].
  rewrite IH. reflexivity.
Qed.

(** One of the five rules, on the array that the body has allocated last:
    the entry is pushed there when the rule triggers, and the rest of the
    body goes on with the score and the store that result. *)
Lemma rule_step :
  forall (A : Type) (c : bool) (x : Factor) (v1 v2 : JS.number)
         (k : JS.number -> Prog A) (w : World) (l : list Obj) (items : list Factor),
    andThen
      (if c then andThen (pushFactor (List.length l) x) (fun _ => done v1)
       else done v2) k
      {| world := w; objects := l ++ [FactorArray items] |}
    = k (if c then v1 else v2)
        {| world := w;
           objects := l ++ [FactorArray (items ++ (if c then [x] else []))] |}.
Proof.
  intros A c x v1 v2 k w l items. destruct c.
  - unfold andThen, pushFactor, done. cbn [objects world].
    rewrite nth_error_last, updateAt_last. reflexivity.
  - unfold andThen, done. rewrite app_nil_r. reflexivity.
Qed.

(** From every store, the program of [calculateACIS] returns the score of
    the function and the address of a new array, which holds the factors of
    the function; it changes nothing else. *)
Lemma calculateACIS_body_run :
  forall (weather : DailyWeather) (preferences : ActivityPreferences) (s : Store),
    calculateACIS_body weather preferences s
    = Some ((score (calculateACIS weather preferences), List.length (objects s)),
            {| world := world s;
               objects := objects s
                          ++ [FactorArray (factors (calculateACIS weather preferences))] |}).
Proof.
  intros w p s. rewrite calculateACIS_unfold. cbn [score factors].
  unfold calculateACIS_body.
  unfold andThen at 1. unfold alloc at 1. cbv beta iota zeta.
  rewrite !rule_step. unfold done.
  unfold penaltySum, expectedFactors, tempOutside, windOver, precipOver,
    aqiOver, uvOver, JS.ge, JS.le, JS.gt.
  generalize (idealTempMin p <=? temp w) (temp w <=? idealTempMax p)
    (maxWindSpeed p <? wind w) (maxPrecipitation p <? precipitation w)
    (100 <? aqi w) (8 <? uv w).
  intros [] [] [] [] [] []; repeat f_equal; vm_compute; reflexivity.
Qed.

Section Loops.

Context {A B C : Type}.
Variable related : A * Store -> C -> Prop.
Variable f : A -> B -> Prog A.
Variable g : C -> B -> C.

(** A loop whose every step keeps the program and the function related
    ends with the two related, and does not raise. *)
Lemma forM_related :
  forall (l : list B),
    (forall x a t c, In x l -> related (a, t) c ->
       exists a' t', f a x t = Some (a', t') /\ related (a', t') (g c x)) ->
    forall a t c, related (a, t) c ->
      exists a' t', forM f l a t = Some (a', t') /\ related (a', t') (fold_left g l c).
Proof.
  induction l as [|x l IH]; intros Hstep a t c Hrel; cbn [forM fold_left].
  - exists a, t. split; [reflexivity | exact Hrel].
  - destruct (Hstep x a t c (or_introl eq_refl) Hrel) as (a1 & t1 & E & Hrel1).
    unfold andThen. rewrite E.
    apply IH; [|exact Hrel1].
    intros y a0 t0 c0 Hy. apply Hstep. right; exact Hy.
Qed.

End Loops.

(** During the search from the store [s], the variable [bestWindow] holds
    the address of a new object whose content is the best window so far. *)
Definition holdsWindow (s : Store) (state : nat * Store) (best : Window) : Prop :=
  nth_error (objects (snd state)) (fst state) = Some (WindowObj best)
  /\ (List.length (objects s) <= fst state)%nat
  /\ preserves s (snd state).

Lemma tryWindow_body_step :
  forall hourlyData preferences start duration s bestWindow t best,
    holdsWindow s (bestWindow, t) best ->
    exists bestWindow' t',
      tryWindow_body hourlyData preferences start bestWindow duration t
      = Some (bestWindow', t')
      /\ holdsWindow s (bestWindow', t')
           (tryWindow hourlyData preferences start best duration).
Proof.
  intros h p start duration s b t best (Hb & Hfresh & Hw & extra & Hobj).
  cbn [fst snd] in *.
  unfold tryWindow_body, tryWindow.
  destruct (20 <? start + duration)%nat.
  - exists b, t. split; [reflexivity|]. repeat split; auto. exists extra; exact Hobj.
  - assert (Hlt : (b < List.length (objects t))%nat)
      by (apply nth_error_Some; rewrite Hb; discriminate).
    unfold andThen at 1. unfold alloc at 1. cbv beta iota.
    unfold andThen at 1. unfold readHours at 1. cbn [objects world].
    rewrite nth_error_last.
    unfold andThen at 1. unfold readWindow at 1. cbn [objects world].
    rewrite nth_error_app1 by exact Hlt. rewrite Hb.
    destruct (JS.gt (fold_left (hourStep p) (JS.slice h start (start + duration)) 10)
                (wscore best)).
    + unfold alloc. eexists _, _. split; [reflexivity|].
      unfold holdsWindow. cbn [fst snd objects world].
      split; [apply nth_error_last|].
      split; [rewrite length_app; cbn; rewrite Hobj, length_app; lia|].
      split; [exact Hw|].
      eexists. rewrite Hobj, <- !app_assoc. reflexivity.
    + unfold done. eexists _, _. split; [reflexivity|].
      unfold holdsWindow. cbn [fst snd objects world].
      split; [rewrite nth_error_app1 by exact Hlt; exact Hb|].
      split; [exact Hfresh|]. split; [exact Hw|].
      eexists. rewrite Hobj, <- app_assoc. reflexivity.
Qed.

(** From every store, the program of [findOptimalTimeWindow] returns the
    address of a new object, which holds the window of the function; it
    changes nothing that was there. *)
Lemma findOptimalTimeWindow_body_run :
  forall (hourlyData : list HourlyWeather) (preferences : ActivityPreferences)
         (s : Store),
    exists result t,
      findOptimalTimeWindow_body hourlyData preferences s = Some (result, t)
      /\ holdsWindow s (result, t) (findOptimalTimeWindow hourlyData preferences).
Proof.
  intros h p s. unfold findOptimalTimeWindow_body, findOptimalTimeWindow.
  unfold andThen at 1. unfold alloc at 1. cbv beta iota.
  apply (forM_related (holdsWindow s)).
  - intros start b t best _ Hrel.
    apply (forM_related (holdsWindow s)); [|exact Hrel].
    intros duration b' t' best' _ Hrel'.
    apply tryWindow_body_step. exact Hrel'.
  - unfold holdsWindow, preserves. cbn [fst snd objects world].
    split; [apply nth_error_last|]. split; [lia|]. split; [reflexivity|].
    eexists. reflexivity.
Qed.

(** A program that draws a random number, by contrast, gives a result that
    depends on the store it starts from, and changes its world. *)
Lemma inWorld_random_depends_on_store :
  exists s1 s2 r1 r2 t1 t2,
    objects s1 = objects s2
    /\ inWorld (getRandomInRange 0 1) s1 = Some (r1, t1)
    /\ inWorld (getRandomInRange 0 1) s2 = Some (r2, t2)
    /\ r1 <> r2.
Proof.
  exists {| world := {| randoms := fun _ => 0; now := 0%Z |}; objects := [] |},
         {| world := {| randoms := fun _ => 1; now := 0%Z |}; objects := [] |}.
  eexists _, _, _, _. split; [reflexivity|].
  split; [reflexivity|]. split; [reflexivity|].
  vm_compute. exact float_0_neq_1.
Qed.

(** C10. Two calls with the same inputs give the same outputs, from any two
    stores, that is, whatever the earlier calls have left, whatever has been
    done to the objects they returned, whatever numbers remain to be drawn
    and whatever the time is.  A call of [calculateACIS] returns the same
    score and a new array with the same factors, those of the function; a
    call of [findOptimalTimeWindow] returns a new object with the same
    window, the one of the function.  Neither call raises, draws a random
    number, reads the clock or changes an object that was there. *)
Theorem core_calls_deterministic :
  forall (weather : DailyWeather) (hourlyData : list HourlyWeather)
         (preferences : ActivityPreferences) (s1 s2 : Store),
    (exists sc a1 a2 t1 t2,
        calculateACIS_body weather preferences s1 = Some ((sc, a1), t1)
        /\ calculateACIS_body weather preferences s2 = Some ((sc, a2), t2)
        /\ sc = score (calculateACIS weather preferences)
        /\ nth_error (objects t1) a1
           = Some (FactorArray (factors (calculateACIS weather preferences)))
        /\ nth_error (objects t2) a2
           = Some (FactorArray (factors (calculateACIS weather preferences)))
        /\ (List.length (objects s1) <= a1)%nat
        /\ (List.length (objects s2) <= a2)%nat
        /\ preserves s1 t1 /\ preserves s2 t2)
    /\ (exists b1 b2 t1 t2,
        findOptimalTimeWindow_body hourlyData preferences s1 = Some (b1, t1)
        /\ findOptimalTimeWindow_body hourlyData preferences s2 = Some (b2, t2)
        /\ nth_error (objects t1) b1
           = Some (WindowObj (findOptimalTimeWindow hourlyData preferences))
        /\ nth_error (objects t2) b2
           = Some (WindowObj (findOptimalTimeWindow hourlyData preferences))
        /\ (List.length (objects s1) <= b1)%nat
        /\ (List.length (objects s2) <= b2)%nat
        /\ preserves s1 t1 /\ preserves s2 t2).
Proof.
  intros weather hourlyData preferences s1 s2. split.
  - eexists _, _, _, _, _.
    split; [apply calculateACIS_body_run|].
    split; [apply calculateACIS_body_run|].
    split; [reflexivity|].
    cbn [objects world].
    split; [apply nth_error_last|]. split; [apply nth_error_last|].
    split; [lia|]. split; [lia|].
    unfold preserves; cbn [objects world].
    split; (split; [reflexivity | eexists; reflexivity]).
  - destruct (findOptimalTimeWindow_body_run hourlyData preferences s1)
      as (b1 & t1 & E1 & H1 & F1 & P1).
    destruct (findOptimalTimeWindow_body_run hourlyData preferences s2)
      as (b2 & t2 & E2 & H2 & F2 & P2).
    exists b1, b2, t1, t2. cbn [fst snd] in *. auto 10.
Qed.

(* ================================================================== *)
(** ** More on the comparisons of doubles *)
(* ================================================================== *)

Lemma SFcompare_Lt_trans :
  forall x y z,
    SFcompare x y = Some Lt -> SFcompare y z = Some Lt -> SFcompare x z = Some Lt.
Proof.
  intros x y z.
  destruct x as [sx | sx | | sx mx ex], y as [sy | sy | | sy my ey],
    z as [sz | sz | | sz mz ez]; cbn;
    repeat match goal with b : bool |- _ => destruct b end; cbn;
    try congruence.
  all: change (Pos.compare_cont Eq mx my) with (mx ?= my)%positive;
    change (Pos.compare_cont Eq my mz) with (my ?= mz)%positive;
    change (Pos.compare_cont Eq mx mz) with (mx ?= mz)%positive;
    destruct (Z.compare_spec ex ey), (Z.compare_spec ey ez), (Z.compare_spec ex ez);
    cbn; try congruence; try lia;
    destruct (Pos.compare_spec mx my), (Pos.compare_spec my mz),
      (Pos.compare_spec mx mz); cbn; try congruence; lia.
Qed.

Lemma ltb_trans :
  forall x y z : float, (x <? y) = true -> (y <? z) = true -> (x <? z) = true.
Proof.
  intros x y z. rewrite !ltb_spec. unfold SFltb.
  destruct (SFcompare (Prim2SF x) (Prim2SF y)) as [[]|] eqn:E1; try discriminate.
  destruct (SFcompare (Prim2SF y) (Prim2SF z)) as [[]|] eqn:E2; try discriminate.
  rewrite (SFcompare_Lt_trans _ _ _ E1 E2). reflexivity.
Qed.

(** Nothing compares with NaN. *)
Lemma compare_nan :
  forall x : float,
    (x <? nan) = false /\ (nan <? x) = false
    /\ (x <=? nan) = false /\ (nan <=? x) = false.
Proof.
  intros x. rewrite !ltb_spec, !leb_spec. unfold SFltb, SFleb.
  change (Prim2SF nan) with S754_nan.
  destruct (Prim2SF x); cbn; auto.
Qed.

(* ================================================================== *)
(** ** The health alerts *)
(* ================================================================== *)

Lemma memb_In : forall x l, memb x l = true <-> In x l.
Proof.
  intros x l. unfold memb. rewrite existsb_exists. split.
  - intros (y & Hy & E). apply String.eqb_eq in E. subst y. exact Hy.
  - intros H. exists x. split; [exact H | apply String.eqb_refl].
Qed.

Lemma nodupb_NoDup : forall l, nodupb l = true -> NoDup l.
Proof.
  induction l as [|x l IH]; cbn; intros H; constructor.
  - apply andb_true_iff in H. destruct H as [H _].
    intros Hin. apply memb_In in Hin. rewrite Hin in H. discriminate H.
  - apply IH. apply andb_true_iff in H. apply H.
Qed.

(** Splits a goal about [getHealthAlerts] along its eight comparisons. *)
Ltac alert_cases w :=
  unfold getHealthAlerts, JS.gt, JS.lt;
  generalize (150 <? aqi w) (100 <? aqi w) (8 <? uv w) (6 <? uv w)
    (temp w <? 5) (35 <? temp w) (40 <? wind w) (70 <? precipitation w);
  intros [] [] [] [] [] [] [] [].

Lemma getHealthAlerts_alertsShape :
  forall w : DailyWeather, alertsShape (getHealthAlerts w) = true.
Proof. intros w. alert_cases w; vm_compute; reflexivity. Qed.

(** X1. The alerts of a day are at most five, none twice, in the order air
    quality, sun, temperature, wind, precipitation; and the two air alerts,
    the two sun alerts, and the hypothermia and heatstroke alerts never come
    together. *)
Theorem getHealthAlerts_shape :
  forall w : DailyWeather,
    let a := getHealthAlerts w in
    (List.length a <= 5)%nat
    /\ NoDup a
    /\ subseqb a allAlerts = true
    /\ ~ (In alertPoorAir a /\ In alertModerateAir a)
    /\ ~ (In alertStrongSun a /\ In alertModerateUV a)
    /\ ~ (In alertHypothermia a /\ In alertHeatstroke a).
Proof.
  intros w a. pose proof (getHealthAlerts_alertsShape w) as H. fold a in H.
  unfold alertsShape in H.
  apply andb_true_iff in H. destruct H as [H Etemp].
  apply andb_true_iff in H. destruct H as [H Esun].
  apply andb_true_iff in H. destruct H as [H Eair].
  apply andb_true_iff in H. destruct H as [H Esub].
  apply andb_true_iff in H. destruct H as [Elen Endup].
  split; [apply Nat.leb_le; exact Elen|].
  split; [apply nodupb_NoDup; exact Endup|].
  split; [exact Esub|].
  repeat split; intros [I1 I2]; apply memb_In in I1, I2.
  - rewrite I1, I2 in Eair. discriminate Eair.
  - rewrite I1, I2 in Esun. discriminate Esun.
  - rewrite I1, I2 in Etemp. discriminate Etemp.
Qed.

(** X2. A day gets no alert exactly when none of the six thresholds is
    passed: aqi not above 100, uv not above 6, temperature neither below 5
    nor above 35, wind not above 40, precipitation not above 70. *)
Theorem getHealthAlerts_none :
  forall w : DailyWeather,
    getHealthAlerts w = []
    <-> (JS.gt (aqi w) 100 = false /\ JS.gt (uv w) 6 = false
         /\ JS.lt (temp w) 5 = false /\ JS.gt (temp w) 35 = false
         /\ JS.gt (wind w) 40 = false /\ JS.gt (precipitation w) 70 = false).
Proof.
  intros w.
  assert (Haqi : (150 <? aqi w) = true -> (100 <? aqi w) = true)
    by (apply ltb_trans; reflexivity).
  assert (Huv : (8 <? uv w) = true -> (6 <? uv w) = true)
    by (apply ltb_trans; reflexivity).
  unfold getHealthAlerts, JS.gt, JS.lt.
  destruct (150 <? aqi w); [specialize (Haqi eq_refl); rewrite Haqi|];
    (destruct (8 <? uv w); [specialize (Huv eq_refl); rewrite Huv|]);
    destruct (100 <? aqi w), (6 <? uv w), (temp w <? 5), (35 <? temp w),
      (40 <? wind w), (70 <? precipitation w);
    cbn; split; intros H; try discriminate H; try reflexivity;
    try (repeat split; reflexivity);
    decompose [and] H; discriminate.
Qed.

Lemma hasFactor_exists :
  forall label fs,
    hasFactor label fs = true <-> exists f, In f fs /\ name f = label.
Proof.
  intros label fs. unfold hasFactor. rewrite existsb_exists.
  split; intros (f & Hf & E); exists f; (split; [exact Hf|]);
    apply String.eqb_eq; exact E.
Qed.

Lemma calculateACIS_hasFactor :
  forall (w : DailyWeather) (p : ActivityPreferences),
    hasFactor "Air Quality" (factors (calculateACIS w p)) = JS.gt (aqi w) 100
    /\ hasFactor "UV Index" (factors (calculateACIS w p)) = JS.gt (uv w) 8.
Proof.
  intros w p. rewrite calculateACIS_unfold. cbn [factors].
  unfold expectedFactors, aqiOver, uvOver, JS.gt.
  generalize (tempOutside w p) (windOver w p) (precipOver w p)
    (100 <? aqi w) (8 <? uv w).
  intros [] [] [] [] []; split; reflexivity.
Qed.

Lemma getHealthAlerts_membership :
  forall w : DailyWeather,
    memb alertPoorAir (getHealthAlerts w) = JS.gt (aqi w) 150
    /\ memb alertModerateAir (getHealthAlerts w)
       = negb (JS.gt (aqi w) 150) && JS.gt (aqi w) 100
    /\ memb alertStrongSun (getHealthAlerts w) = JS.gt (uv w) 8.
Proof.
  intros w. alert_cases w; vm_compute; repeat split; reflexivity.
Qed.

(** X3. The scorer and the alerts agree on air quality and on the sun: a
    day carries the "Air Quality" factor exactly when it gets one of the two
    air alerts, and the "UV Index" factor exactly when it gets the strong sun
    alert. *)
Theorem calculateACIS_getHealthAlerts_agree :
  forall (w : DailyWeather) (p : ActivityPreferences),
    ((exists f, In f (factors (calculateACIS w p)) /\ name f = "Air Quality")
     <-> (In alertPoorAir (getHealthAlerts w)
          \/ In alertModerateAir (getHealthAlerts w)))
    /\ ((exists f, In f (factors (calculateACIS w p)) /\ name f = "UV Index")
        <-> In alertStrongSun (getHealthAlerts w)).
Proof.
  intros w p.
  destruct (calculateACIS_hasFactor w p) as [Fa Fu].
  destruct (getHealthAlerts_membership w) as (Mp & Mm & Ms).
  rewrite <- !hasFactor_exists, <- !memb_In, Fa, Fu, Mp, Mm, Ms.
  split; [|tauto].
  assert (Haqi : JS.gt (aqi w) 150 = true -> JS.gt (aqi w) 100 = true)
    by (unfold JS.gt; apply ltb_trans; reflexivity).
  destruct (JS.gt (aqi w) 150); [rewrite (Haqi eq_refl)|];
    destruct (JS.gt (aqi w) 100); cbn; intuition discriminate.
Qed.

(* ================================================================== *)
(** ** The score against its factors *)
(* ================================================================== *)

(** X4. The clamp of the scorer is never active: the score is 10 plus the
    sum of the impacts of the listed factors, it is at least 2.5, and it is
    10 exactly when no factor is listed. *)
Theorem calculateACIS_score_is_sum :
  forall (w : DailyWeather) (p : ActivityPreferences),
    let r := calculateACIS w p in
    score r = 10 + fold_left (fun acc f => acc + impact f) (factors r) 0
    /\ JS.le 2.5 (score r) = true
    /\ ((score r =? 10) = true <-> factors r = []).
Proof.
  intros w p r. subst r. rewrite calculateACIS_unfold. cbn [score factors].
  split_triggers w p; vm_compute;
    (split; [reflexivity|]); (split; [reflexivity|]);
    split; intros H; try discriminate H; reflexivity.
Qed.

(* ================================================================== *)
(** ** The condition of a sample and its icon *)
(* ================================================================== *)

Lemma gt_chain :
  forall (x a b : float), (a <? b) = true -> JS.gt x b = true -> JS.gt x a = true.
Proof. intros x a b Hab H. unfold JS.gt in *. exact (ltb_trans _ _ _ Hab H). Qed.

(** X5. The region of each condition, in temperature and precipitation:
    snow above 60 when freezing, rain above 60 otherwise, storms between 30
    and 60, partly cloudy between 10 and 30; at 10 and below the temperature
    decides between sunny (above 25), partly cloudy (above 15) and cloudy. *)
Theorem getConditionForTemp_regions :
  forall t p : JS.number,
    (getConditionForTemp t p = snowy <-> JS.gt p 60 = true /\ JS.lt t 0 = true)
    /\ (getConditionForTemp t p = rainy <-> JS.gt p 60 = true /\ JS.lt t 0 = false)
    /\ (getConditionForTemp t p = stormy <-> JS.gt p 30 = true /\ JS.gt p 60 = false)
    /\ (getConditionForTemp t p = sunny <-> JS.gt p 10 = false /\ JS.gt t 25 = true)
    /\ (getConditionForTemp t p = cloudy <-> JS.gt p 10 = false /\ JS.gt t 15 = false)
    /\ (getConditionForTemp t p = partly_cloudy <->
          (JS.gt p 10 = true /\ JS.gt p 30 = false)
          \/ (JS.gt p 10 = false /\ JS.gt t 15 = true /\ JS.gt t 25 = false)).
Proof.
  intros t p.
  pose proof (gt_chain p 30 60 eq_refl) as P60.
  pose proof (gt_chain p 10 30 eq_refl) as P30.
  pose proof (gt_chain t 15 25 eq_refl) as T25.
  unfold getConditionForTemp.
  destruct (JS.gt p 60); [rewrite (P60 eq_refl) in *|];
    (destruct (JS.gt p 30); [rewrite (P30 eq_refl) in *|]);
    (destruct (JS.gt t 25); [rewrite (T25 eq_refl) in *|]);
    destruct (JS.gt p 10), (JS.gt t 15), (JS.lt t 0);
    repeat split; intros; try discriminate; try reflexivity;
    intuition discriminate.
Qed.

(** X6. The icon of a sample whose condition comes from
    [getConditionForTemp] is the sun in two cases only: the sunny region
    and, through the default branch of the switch, the snowy one. *)
Theorem WeatherIcon_sun :
  forall t p : JS.number,
    WeatherIcon (conditionTag (getConditionForTemp t p)) = Sun
    <-> (JS.gt p 60 = true /\ JS.lt t 0 = true)
        \/ (JS.gt p 10 = false /\ JS.gt t 25 = true).
Proof.
  intros t p.
  pose proof (gt_chain p 30 60 eq_refl) as P60.
  pose proof (gt_chain p 10 30 eq_refl) as P30.
  unfold getConditionForTemp.
  destruct (JS.gt p 60); [rewrite (P60 eq_refl) in *|];
    (destruct (JS.gt p 30); [rewrite (P30 eq_refl) in *|]);
    destruct (JS.gt p 10), (JS.gt t 25), (JS.gt t 15), (JS.lt t 0);
    cbn; split; intros H; try discriminate H; try reflexivity; auto;
    intuition discriminate.
Qed.

(* ================================================================== *)
(** ** The best day of a forecast *)
(* ================================================================== *)

Lemma calculateACIS_acisScores :
  forall (w : DailyWeather) (p : ActivityPreferences),
    In (score (calculateACIS w p)) acisScores.
Proof.
  intros w p. rewrite calculateACIS_unfold. cbn [score].
  split_triggers w p; vm_compute; repeat first [left; reflexivity | right].
Qed.

Lemma acisScores_order :
  forall x y, In x acisScores -> In y acisScores ->
    JS.gt x y = (scoreKey y <? scoreKey x)%Z
    /\ (x =? y) = (scoreKey x =? scoreKey y)%Z
    /\ JS.le x y = (scoreKey x <=? scoreKey y)%Z.
Proof.
  assert (H : (let k := keyed acisScores in
               forallb (fun a => forallb (orderAgrees a) k) k) = true)
    by (vm_compute; reflexivity).
  intros x y Hx Hy. cbv zeta in H.
  rewrite forallb_forall in H.
  specialize (H (x, scoreKey x) (in_map (fun x => (x, scoreKey x)) _ _ Hx)).
  rewrite forallb_forall in H.
  specialize (H (y, scoreKey y) (in_map (fun x => (x, scoreKey x)) _ _ Hy)).
  unfold orderAgrees in H.
  apply andb_true_iff in H. destruct H as [H H3].
  apply andb_true_iff in H. destruct H as [H1 H2].
  apply Bool.eqb_prop in H1, H2, H3. auto.
Qed.

Section BestDay.

Variable arr : list ScoredDay.
Hypothesis arr_scores : forall r, In r arr -> In (r_score r) acisScores.

(** The key of the score at an index. *)
Definition keyAt (i : nat) : Z :=
  match nth_error arr i with
  | Some r => scoreKey (r_score r)
  | None => 0%Z
  end.

(** After the callback has run on the indices below [k], [m] is the first
    index that holds the highest score seen. *)
Definition bestSoFar (k m : nat) : Prop :=
  (m < List.length arr)%nat
  /\ (forall j, (j < k)%nat -> (keyAt j <= keyAt m)%Z)
  /\ (forall j, (j < m)%nat -> (keyAt j < keyAt m)%Z).

Lemma bestStep_fold :
  forall (suf pre : list ScoredDay) (m : nat),
    arr = (pre ++ suf)%list ->
    bestSoFar (List.length pre) m ->
    exists m',
      fold_left (bestStep arr)
        (combine (seq (List.length pre) (List.length suf)) suf) (Some m) = Some m'
      /\ bestSoFar (List.length arr) m'.
Proof.
  induction suf as [|c suf IH]; intros pre m Harr Hinv.
  - exists m. split; [reflexivity|].
    rewrite Harr, app_nil_r. exact Hinv.
  - cbn [List.length seq combine fold_left bestStep].
    destruct Hinv as (Hm & Hle & Hlt).
    destruct (nth_error arr m) as [best|] eqn:Ebest;
      [|apply nth_error_None in Ebest; lia].
    assert (Ec : nth_error arr (List.length pre) = Some c)
      by (rewrite Harr, nth_error_app2, Nat.sub_diag by lia; reflexivity).
    assert (Hvc : In (r_score c) acisScores)
      by (apply arr_scores; exact (nth_error_In _ _ Ec)).
    assert (Hvb : In (r_score best) acisScores)
      by (apply arr_scores; exact (nth_error_In _ _ Ebest)).
    destruct (acisScores_order _ _ Hvc Hvb) as (Hgt & _ & _). rewrite Hgt.
    assert (Kc : keyAt (List.length pre) = scoreKey (r_score c))
      by (unfold keyAt; rewrite Ec; reflexivity).
    assert (Kb : keyAt m = scoreKey (r_score best))
      by (unfold keyAt; rewrite Ebest; reflexivity).
    assert (Harr' : arr = ((pre ++ [c]) ++ suf)%list)
      by (rewrite <- app_assoc; exact Harr).
    assert (Hlen : List.length (pre ++ [c]) = S (List.length pre))
      by (rewrite length_app; cbn; lia).
    assert (Hk : (List.length pre < List.length arr)%nat)
      by (rewrite Harr, length_app; cbn; lia).
    rewrite <- Hlen.
    destruct (scoreKey (r_score best) <? scoreKey (r_score c))%Z eqn:E.
    + apply Z.ltb_lt in E. apply (IH (pre ++ [c])%list _ Harr').
      rewrite Hlen. repeat split; [exact Hk | |].
      * intros j Hj. destruct (Nat.eq_dec j (List.length pre)) as [->|Hne]; [lia|].
        specialize (Hle j ltac:(lia)). lia.
      * intros j Hj. specialize (Hle j Hj). lia.
    + apply Z.ltb_ge in E. apply (IH (pre ++ [c])%list _ Harr').
      rewrite Hlen. repeat split; [exact Hm | | exact Hlt].
      intros j Hj. destruct (Nat.eq_dec j (List.length pre)) as [->|Hne]; [lia|].
      apply Hle. lia.
Qed.

Lemma bestDayIndexOf_first_max :
  arr <> [] ->
  exists i, bestDayIndexOf arr = Some i /\ bestSoFar (List.length arr) i.
Proof.
  intros Hne. unfold bestDayIndexOf.
  apply (bestStep_fold arr [] 0%nat eq_refl).
  repeat split; cbn; intros; try lia.
  destruct arr; [contradiction | cbn; lia].
Qed.

End BestDay.

Lemma resultsWithScores_scores :
  forall activity forecast r,
    In r (resultsWithScores activity forecast) -> In (r_score r) acisScores.
Proof.
  intros activity forecast r H. unfold resultsWithScores in H.
  apply in_map_iff in H. destruct H as (day & <- & _).
  cbn [r_score]. apply calculateACIS_acisScores.
Qed.

(** X7. On a forecast that is not empty the index of the best day is
    defined and within the list; no day scores more than the best one, and a
    day that scores as much comes no earlier. *)
Theorem bestDayIndex_first_max :
  forall (activity : string) (forecast : list DailyWeather),
    forecast <> [] ->
    exists i best,
      bestDayIndex activity forecast = Some i
      /\ bestResult activity forecast = Some best
      /\ nth_error (resultsWithScores activity forecast) i = Some best
      /\ r_day best = nth i forecast (r_day best)
      /\ forall j r,
           nth_error (resultsWithScores activity forecast) j = Some r ->
           JS.le (r_score r) (r_score best) = true
           /\ ((r_score r =? r_score best) = true -> (i <= j)%nat).
Proof.
  intros activity forecast Hne.
  assert (Hne' : resultsWithScores activity forecast <> []).
  { unfold resultsWithScores. destruct forecast; [contradiction | discriminate]. }
  destruct (bestDayIndexOf_first_max _ (resultsWithScores_scores activity forecast) Hne')
    as (i & Hi & Hlen & Hle & Hlt).
  destruct (nth_error (resultsWithScores activity forecast) i) as [best|] eqn:Ebest;
    [|apply nth_error_None in Ebest; lia].
  exists i, best. unfold bestResult, bestDayIndex. rewrite Hi.
  split; [reflexivity|]. split; [exact Ebest|]. split; [exact Ebest|]. split.
  - unfold resultsWithScores in Ebest. rewrite nth_error_map in Ebest.
    destruct (nth_error forecast i) as [d|] eqn:Ed; [|discriminate Ebest].
    injection Ebest as <-. cbn [r_day].
    symmetry. apply nth_error_nth. exact Ed.
  - intros j r Ej.
    assert (Hvr : In (r_score r) acisScores)
      by (apply (resultsWithScores_scores activity forecast); exact (nth_error_In _ _ Ej)).
    assert (Hvb : In (r_score best) acisScores)
      by (apply (resultsWithScores_scores activity forecast); exact (nth_error_In _ _ Ebest)).
    destruct (acisScores_order _ _ Hvr Hvb) as (_ & Heq & Hle').
    rewrite Heq, Hle'.
    assert (Hj : (j < List.length (resultsWithScores activity forecast))%nat)
      by (apply nth_error_Some; rewrite Ej; discriminate).
    pose proof (Hle j Hj) as Hjle. unfold keyAt in Hjle, Hlt.
    rewrite Ej, Ebest in Hjle.
    split; [apply Z.leb_le; exact Hjle|].
    intros E. apply Z.eqb_eq in E.
    destruct (Nat.lt_ge_cases j i) as [Hji | Hij]; [|exact Hij].
    specialize (Hlt j Hji). rewrite Ej, Ebest in Hlt. lia.
Qed.

(** X7 on a forecast of two days, the second one milder. *)
Lemma bestDayIndex_first_max_witness :
  [sampleDay 38 55 90 160 9; sampleDay 20 5 0 30 3] <> []
  /\ exists i best,
       bestDayIndex "trekking" [sampleDay 38 55 90 160 9; sampleDay 20 5 0 30 3]
       = Some i
       /\ bestResult "trekking" [sampleDay 38 55 90 160 9; sampleDay 20 5 0 30 3]
          = Some best.
Proof.
  assert (H : [sampleDay 38 55 90 160 9; sampleDay 20 5 0 30 3] <> [])
    by discriminate.
  split; [exact H|].
  destruct (bestDayIndex_first_max "trekking"
              [sampleDay 38 55 90 160 9; sampleDay 20 5 0 30 3] H)
    as (i & best & Hi & Hb & _).
  exists i, best. split; [exact Hi | exact Hb].
Defined.

(** X8. The reduce never raises: the index of the best day is always
    defined, and it is 0 on the empty forecast, where no result exists at
    that index; the best result is undefined for the empty forecast only. *)
Theorem bestResult_defined :
  forall (activity : string) (forecast : list DailyWeather),
    (exists i, bestDayIndex activity forecast = Some i)
    /\ bestDayIndex activity [] = Some 0%nat
    /\ (bestResult activity forecast = None <-> forecast = []).
Proof.
  intros activity forecast.
  assert (Hall : forecast <> [] ->
            exists i, bestDayIndex activity forecast = Some i
                      /\ (i < List.length (resultsWithScores activity forecast))%nat).
  { intros Hne.
    assert (Hne' : resultsWithScores activity forecast <> []).
    { unfold resultsWithScores. destruct forecast; [contradiction | discriminate]. }
    destruct (bestDayIndexOf_first_max _ (resultsWithScores_scores activity forecast) Hne')
      as (i & Hi & Hlen & _).
    exists i. split; [exact Hi | exact Hlen]. }
  split; [|split; [reflexivity|]].
  - destruct forecast as [|d l]; [exists 0%nat; reflexivity|].
    destruct (Hall ltac:(discriminate)) as (i & Hi & _). exists i. exact Hi.
  - split.
    + intros Hnone. destruct forecast as [|d l]; [reflexivity|].
      destruct (Hall ltac:(discriminate)) as (i & Hi & Hlen).
      unfold bestResult in Hnone. rewrite Hi in Hnone.
      apply nth_error_None in Hnone. lia.
    + intros ->. reflexivity.
Qed.

(** X9. The colour of a day's card against its hint and its factors: the
    hint to consider other days is shown exactly on the orange and red
    cards; a card is red exactly when the temperature, wind and
    precipitation rules all trigger together with the air quality or the UV
    rule; and a day without any factor is green. *)
Theorem scoreClass_hint :
  forall (w : DailyWeather) (p : ActivityPreferences),
    let s := score (calculateACIS w p) in
    (showsAlternativeHint s = true
     <-> scoreClass s = "text-orange-600" \/ scoreClass s = "text-red-600")
    /\ (scoreClass s = "text-red-600"
        <-> tempOutside w p = true /\ windOver w p = true /\ precipOver w p = true
            /\ (aqiOver w = true \/ uvOver w = true))
    /\ (factors (calculateACIS w p) = [] -> scoreClass s = "text-green-600").
Proof.
  intros w p s. subst s. rewrite calculateACIS_unfold. cbn [score factors].
  split_triggers w p; vm_compute; repeat split; intros;
    try discriminate; try reflexivity; intuition discriminate.
Qed.

(* ================================================================== *)
(** ** The hours drawn as optimal *)
(* ================================================================== *)

Lemma map_filter_comp :
  forall (A B : Type) (g : A -> B) (f : B -> bool) (l : list A),
    map g (filter (fun x => f (g x)) l) = filter f (map g l).
Proof.
  intros A B g f l. induction l as [|x l IH]; cbn; [reflexivity|].
  destruct (f (g x)); cbn; rewrite IH; reflexivity.
Qed.

(** Among the hours 0..23, those from the start of a candidate up to its
    end, the end excluded, pass the test of [isOptimal]. *)
Lemma hours_between :
  forall c, In c candidates ->
    filter (fun x => JS.ge x (ofNat (fst c)) && JS.lt x (ofNat (snd c)))
      (map ofNat (seq 0 24))
    = map ofNat (seq (fst c) (snd c - fst c)).
Proof.
  intros c H. vm_compute in H.
  repeat (destruct H as [<- | H]; [vm_compute; reflexivity|]).
  contradiction.
Qed.

(** X10. On a day whose hourly samples carry the hours 0..23 in order, the
    hours drawn as optimal are exactly those from the start of the returned
    window up to its end, the end excluded: between three and eight of them,
    none before 6 and none from 20 on. *)
Theorem optimalHours_window :
  forall (day : DailyWeather) (activity : string),
    map hour (hourlyData day) = map ofNat (seq 0 24) ->
    let w := findOptimalTimeWindow (hourlyData day)
               (readPreferences (getActivityPreferences activity)) in
    map hour (optimalHours day activity)
    = map ofNat (seq (startHour w) (endHour w - startHour w))
    /\ List.length (optimalHours day activity) = (endHour w - startHour w)%nat
    /\ (3 <= List.length (optimalHours day activity) <= 8)%nat
    /\ (6 <= startHour w)%nat /\ (endHour w <= 20)%nat.
Proof.
  intros day activity Hhours w.
  destruct (findOptimalTimeWindow_result (hourlyData day)
              (readPreferences (getActivityPreferences activity)))
    as (l1 & c & l2 & Hsplit & Hr & _ & _).
  assert (Hc : In c candidates) by (rewrite Hsplit; apply in_elt).
  assert (Hmap : map hour (optimalHours day activity)
                 = map ofNat (seq (startHour w) (endHour w - startHour w))).
  { unfold optimalHours. fold w. unfold isOptimal.
    rewrite (map_filter_comp _ _ hour
               (fun x => JS.ge x (ofNat (startHour w)) && JS.lt x (ofNat (endHour w)))).
    rewrite Hhours. subst w. rewrite Hr. cbn [startHour endHour windowOf].
    apply hours_between. exact Hc. }
  assert (Hlen : List.length (optimalHours day activity) = (endHour w - startHour w)%nat).
  { rewrite <- (length_map hour), Hmap, length_map, length_seq. reflexivity. }
  split; [exact Hmap|]. split; [exact Hlen|]. rewrite Hlen.
  subst w. rewrite Hr. cbn [startHour endHour windowOf].
  rewrite (surjective_pairing c) in Hc. apply isCandidate_In in Hc.
  unfold isCandidate in Hc. lia.
Qed.

Lemma optimalHours_window_witness :
  map hour (hourlyData (sampleDayWith (sameAllDay 38 55 90) 38 55 90 160 9))
  = map ofNat (seq 0 24)
  /\ List.length (optimalHours (sampleDayWith (sameAllDay 38 55 90) 38 55 90 160 9)
                    "cycling") = 3%nat.
Proof.
  assert (H : map hour (hourlyData (sampleDayWith (sameAllDay 38 55 90) 38 55 90 160 9))
              = map ofNat (seq 0 24)) by reflexivity.
  split; [exact H|].
  destruct (optimalHours_window (sampleDayWith (sameAllDay 38 55 90) 38 55 90 160 9)
              "cycling" H) as (_ & Hlen & _).
  rewrite Hlen. vm_compute. reflexivity.
Defined.

(* ================================================================== *)
(** ** More on the profile lookup *)
(* ================================================================== *)

Lemma ownProperty_In :
  forall key props p, ownProperty key props = Some p -> In (key, p) props.
Proof.
  intros key props p. induction props as [|[k v] rest IH]; cbn; [discriminate|].
  destruct (String.eqb k key) eqn:E.
  - intros H. injection H as ->. apply String.eqb_eq in E. subst k.
    left; reflexivity.
  - intros H. right. apply IH. exact H.
Qed.

(** X11. Whatever the name, the lookup returns either one of the ten
    profiles of the table, whose ideal range is not empty and whose two
    maxima are not negative, or, when the lowercased name is one of the
    members every object inherits, that member; it never returns
    undefined. *)
Theorem getActivityPreferences_result :
  forall activityName : string,
    match getActivityPreferences activityName with
    | VProfile p =>
        (exists key, In (key, p) activityDefaults)
        /\ JS.le (idealTempMin p) (idealTempMax p) = true
        /\ JS.le 0 (maxWindSpeed p) = true
        /\ JS.le 0 (maxPrecipitation p) = true
    | VInherited key =>
        key = JS.toLowerCase activityName
        /\ In key Object_prototype_keys
        /\ ownProperty key activityDefaults = None
    | VUndefined => False
    end.
Proof.
  intros activityName.
  assert (Htable : forall kp, In kp activityDefaults ->
            JS.le (idealTempMin (snd kp)) (idealTempMax (snd kp)) = true
            /\ JS.le 0 (maxWindSpeed (snd kp)) = true
            /\ JS.le 0 (maxPrecipitation (snd kp)) = true).
  { intros kp H. unfold activityDefaults in H. cbn in H.
    repeat (destruct H as [<- | H]; [vm_compute; auto|]). contradiction. }
  unfold getActivityPreferences, getProperty at 1.
  destruct (ownProperty (JS.toLowerCase activityName) activityDefaults) as [p|] eqn:E.
  - cbn. apply ownProperty_In in E. split; [eexists; exact E|].
    exact (Htable _ E).
  - destruct (existsb (String.eqb (JS.toLowerCase activityName)) Object_prototype_keys) eqn:Ex.
    + cbn. split; [reflexivity|]. split; [|exact E].
      apply existsb_exists in Ex. destruct Ex as (k & Hk & Ek).
      apply String.eqb_eq in Ek. subst k. exact Hk.
    + cbn. split; [eexists; left; reflexivity|]. vm_compute. auto.
Qed.

(** The profile read off an inherited member: four times no number. *)
Lemma hourStep_nan :
  forall key score (h : HourlyWeather),
    hourStep (readPreferences (VInherited key)) score h = score.
Proof.
  intros key score h. unfold hourStep, JS.lt, JS.gt.
  cbn [readPreferences idealTempMin idealTempMax maxWindSpeed maxPrecipitation].
  destruct (compare_nan (temp h)) as (E1 & E2 & _).
  destruct (compare_nan (wind h)) as (_ & E3 & _).
  destruct (compare_nan (precipitation h)) as (_ & E4 & _).
  rewrite E1, E2, E3, E4. reflexivity.
Qed.

(** X12. When a name resolves to an inherited member, the scorer charges
    the temperature penalty to every day and never the wind or the
    precipitation penalty, so no day scores above 8; and the window finder
    charges nothing, so it returns the window 6..9 with score 10 for every
    hourly array. *)
Theorem inherited_member_scoring :
  forall (activityName key : string),
    getActivityPreferences activityName = VInherited key ->
    forall (w : DailyWeather) (hours : list HourlyWeather),
      let p := readPreferences (getActivityPreferences activityName) in
      hasFactor "Temperature" (factors (calculateACIS w p)) = true
      /\ hasFactor "Wind" (factors (calculateACIS w p)) = false
      /\ hasFactor "Precipitation" (factors (calculateACIS w p)) = false
      /\ JS.le (score (calculateACIS w p)) 8 = true
      /\ findOptimalTimeWindow hours p
         = {| startHour := 6; endHour := 9; wscore := 10 |}.
Proof.
  intros activityName key E w hours p. subst p. rewrite E.
  assert (Hscorer :
    hasFactor "Temperature" (factors (calculateACIS w (readPreferences (VInherited key)))) = true
    /\ hasFactor "Wind" (factors (calculateACIS w (readPreferences (VInherited key)))) = false
    /\ hasFactor "Precipitation" (factors (calculateACIS w (readPreferences (VInherited key)))) = false
    /\ JS.le (score (calculateACIS w (readPreferences (VInherited key)))) 8 = true).
  { rewrite calculateACIS_unfold. cbn [score factors].
    unfold penaltySum, expectedFactors, tempOutside, windOver, precipOver.
    cbn [readPreferences idealTempMin idealTempMax maxWindSpeed maxPrecipitation].
    destruct (compare_nan (temp w)) as (_ & _ & _ & E1).
    destruct (compare_nan (wind w)) as (_ & E2 & _).
    destruct (compare_nan (precipitation w)) as (_ & E3 & _).
    rewrite E1, E2, E3. cbn [andb negb].
    generalize (aqiOver w) (uvOver w). intros [] []; vm_compute; auto. }
  destruct Hscorer as (H1 & H2 & H3 & H4).
  repeat (split; [assumption|]).
  rewrite findOptimalTimeWindow_search, <- search_constant_10.
  apply search_pointwise. intros c _. unfold candidateScore.
  generalize (JS.slice hours (fst c) (snd c)). intros l.
  induction l as [|h l IH]; cbn [fold_left]; [reflexivity|].
  rewrite hourStep_nan. exact IH.
Qed.

Lemma inherited_member_scoring_witness :
  getActivityPreferences "Constructor" = VInherited "constructor"
  /\ findOptimalTimeWindow (sameAllDay 38 55 90)
       (readPreferences (getActivityPreferences "Constructor"))
     = {| startHour := 6; endHour := 9; wscore := 10 |}.
Proof.
  assert (H : getActivityPreferences "Constructor" = VInherited "constructor")
    by reflexivity.
  split; [exact H|].
  destruct (inherited_member_scoring "Constructor" "constructor" H
              (sampleDay 20 5 0 30 3) (sameAllDay 38 55 90)) as (_ & _ & _ & _ & Hw).
  exact Hw.
Defined.

(* ================================================================== *)
(** ** Clamping with Math.max and Math.min *)
(* ================================================================== *)

Lemma is_nan_Prim2SF :
  forall x : float, is_nan x = false -> Prim2SF x <> S754_nan.
Proof.
  intros x H E. unfold is_nan in H. rewrite eqb_spec, E in H. discriminate H.
Qed.

Lemma SFcompare_None :
  forall a b, SFcompare a b = None -> a = S754_nan \/ b = S754_nan.
Proof.
  intros a b H. destruct a, b; cbn in H; try discriminate H; auto.
Qed.

Lemma ltb_leb : forall x y : float, (x <? y) = true -> (x <=? y) = true.
Proof.
  intros x y. rewrite ltb_spec, leb_spec. unfold SFltb, SFleb.
  destruct (SFcompare (Prim2SF x) (Prim2SF y)) as [[]|]; congruence.
Qed.

Lemma not_ltb_leb :
  forall x y : float,
    is_nan x = false -> is_nan y = false -> (x <? y) = false -> (y <=? x) = true.
Proof.
  intros x y Hx Hy. rewrite ltb_spec, leb_spec. unfold SFltb, SFleb.
  rewrite (SFcompare_antisym (Prim2SF x) (Prim2SF y)).
  destruct (SFcompare (Prim2SF x) (Prim2SF y)) as [[]|] eqn:E; cbn; try congruence.
  apply SFcompare_None in E.
  destruct E as [E | E]; [apply is_nan_Prim2SF in Hx | apply is_nan_Prim2SF in Hy];
    contradiction.
Qed.

(** [Math.max(8, Math.min(65, x))] is a number when [x] is one, and then it
    lies between 8 and 65. *)
Lemma clamp_8_65 :
  forall x : float,
    is_nan x = false ->
    let r := JS.Math_max 8 (JS.Math_min 65 x) in
    is_nan r = false /\ JS.le 8 r = true /\ JS.le r 65 = true.
Proof.
  intros x Hx.
  assert (Hm : is_nan (JS.Math_min 65 x) = false
               /\ (JS.Math_min 65 x <=? 65) = true).
  { unfold JS.Math_min. change (is_nan 65) with false. rewrite Hx. cbn [orb].
    destruct (65 <? x) eqn:E1; [split; reflexivity|].
    destruct (x <? 65) eqn:E2; [split; [exact Hx | apply ltb_leb; exact E2]|].
    change (get_sign 65) with false. cbv iota.
    split; [exact Hx | apply not_ltb_leb; [reflexivity | exact Hx | exact E1]]. }
  destruct Hm as [Hn Hle]. revert Hn Hle.
  generalize (JS.Math_min 65 x). intros m Hn Hle r. subst r.
  unfold JS.Math_max, JS.le. change (is_nan 8) with false. rewrite Hn. cbn [orb].
  destruct (8 <? m) eqn:E1; [split; [exact Hn|split; [apply ltb_leb; exact E1 | exact Hle]]|].
  destruct (m <? 8) eqn:E2; [repeat split; reflexivity|].
  change (get_sign 8) with false. cbv iota. repeat split; reflexivity.
Qed.

(* ================================================================== *)
(** ** The generated data *)
(* ================================================================== *)

Lemma forEachM_Forall2 :
  forall (A : Type) (P : nat -> A -> Prop) (body : nat -> Eff A),
    (forall i w, P i (fst (body i w))) ->
    forall l w, Forall2 P l (fst (forEachM l body w)).
Proof.
  intros A P body H l. induction l as [|i l IH]; intros w; cbn.
  - constructor.
  - unfold bind, ret. pose proof (H i w) as Hi.
    destruct (body i w) as [a w1]. pose proof (IH w1) as Hl.
    destruct (forEachM l body w1) as [more w2]. cbn in *.
    constructor; assumption.
Qed.

Lemma Forall2_map_eq :
  forall (A B : Type) (f : A -> B) (g : nat -> B) (l : list nat) (la : list A),
    Forall2 (fun i a => f a = g i) l la -> map f la = map g l.
Proof.
  intros A B f g l la H. induction H as [|i a l la E _ IH]; cbn; [reflexivity|].
  rewrite E, IH. reflexivity.
Qed.

Lemma Forall2_right :
  forall (A : Type) (P : A -> Prop) (l : list nat) (la : list A),
    Forall2 (fun _ a => P a) l la -> Forall P la.
Proof.
  intros A P l la H. induction H; constructor; assumption.
Qed.

Section GeneratedData.

Variable Math_sin : JS.number -> JS.number.
Variable Math_round : JS.number -> JS.number.
Variable getHours getDay getMonth : Date -> JS.number.
Variable setHours : Date -> JS.number -> Date.
Variable getDate : Date -> JS.number.
Variable setDate : Date -> JS.number -> Date.
Variable tick : Date -> Date.

Local Abbreviation hourOf :=
  (generateHour Math_sin Math_round getHours getDay getMonth setHours tick).
Local Abbreviation hoursOf :=
  (generateHourlyWeather Math_sin Math_round getHours getDay getMonth setHours tick).
Local Abbreviation dayOf :=
  (generateDay Math_sin Math_round getHours getDay getMonth setHours getDate setDate
     tick).
Local Abbreviation forecastOf :=
  (generateDailyForecast Math_sin Math_round getHours getDay getMonth setHours
     getDate setDate tick).

Lemma generateHour_fields :
  forall date baseTemp n w,
    let h := fst (hourOf date baseTemp n w) in
    hour h = ofNat n
    /\ timestamp h = setHours date (ofNat n)
    /\ description h = getConditionDescription (condition h).
Proof.
  intros date baseTemp n w.
  unfold generateHour, generateRealisticAQI, getRandomInRange, Math_random,
    newDate, bind, ret.
  destruct (JS.ge (ofNat n) 6 && JS.le (ofNat n) 18); cbn; auto.
Qed.

Lemma generateHourlyWeather_Forall2 :
  forall date baseTemp w,
    Forall2
      (fun n (h : HourlyWeather) =>
         hour h = ofNat n
         /\ timestamp h = setHours date (ofNat n)
         /\ description h = getConditionDescription (condition h))
      (seq 0 24) (fst (hoursOf date baseTemp w)).
Proof.
  intros date baseTemp w. unfold generateHourlyWeather.
  apply forEachM_Forall2. intros i w'. apply generateHour_fields.
Qed.

(** X15. The generated air quality index, whenever it is a number, lies
    between 8 and 65, whatever the place, the time and the random number
    drawn. *)
Theorem generateRealisticAQI_bounds :
  forall (lat lon : JS.number) (w : World),
    let r := generateRealisticAQI Math_round getHours getDay getMonth tick lat lon w in
    is_nan (fst r) = false ->
    JS.le 8 (fst r) = true /\ JS.le (fst r) 65 = true.
Proof.
  intros lat lon w r. subst r.
  unfold generateRealisticAQI, newDate, Math_random, bind, ret.
  cbv beta iota zeta. cbn [fst].
  match goal with
  | |- context [Math_round ?e] => generalize (Math_round e)
  end.
  intros x Hr. destruct (is_nan x) eqn:Hx.
  - unfold JS.Math_min in Hr. rewrite Hx, orb_true_r in Hr.
    vm_compute in Hr. discriminate Hr.
  - apply (clamp_8_65 x Hx).
Qed.

(** X13. Whatever the date, the base temperature and the random numbers
    drawn, the generated hourly array has twenty-four samples, the sample at
    index i carries the hour i and the time of the date at that hour, and
    each description is the one of the sample's condition. *)
Theorem generateHourlyWeather_shape :
  forall (date : Date) (baseTemp : JS.number) (w : World),
    let hs := fst (hoursOf date baseTemp w) in
    List.length hs = 24%nat
    /\ map hour hs = map ofNat (seq 0 24)
    /\ map timestamp hs = map (fun n => setHours date (ofNat n)) (seq 0 24)
    /\ Forall (fun h : HourlyWeather =>
                 description h = getConditionDescription (condition h)) hs.
Proof.
  intros date baseTemp w hs. subst hs.
  pose proof (generateHourlyWeather_Forall2 date baseTemp w) as H.
  split; [rewrite <- (Forall2_length H); reflexivity|].
  split; [apply Forall2_map_eq; revert H; apply Forall2_impl; tauto|].
  split; [apply Forall2_map_eq; revert H; apply Forall2_impl; tauto|].
  apply (Forall2_right _ _ (seq 0 24)). revert H. apply Forall2_impl. tauto.
Qed.

Lemma generateDay_fields :
  forall startDate baseTemp i w,
    let d := fst (dayOf startDate baseTemp i w) in
    date d = setDate startDate (getDate startDate + ofNat i)
    /\ map hour (hourlyData d) = map ofNat (seq 0 24)
    /\ sunrise d = "06:30" /\ sunset d = "18:45"
    /\ description d = getConditionDescription (condition d).
Proof.
  intros startDate baseTemp i w d. subst d.
  unfold generateDay, getRandomInRange, Math_random, bind, ret.
  cbv beta zeta. cbn [fst snd].
  match goal with
  | |- context [hoursOf ?d ?t ?w'] =>
      pose proof (generateHourlyWeather_Forall2 d t w') as Hh;
      destruct (hoursOf d t w') as [hs w2]
  end.
  cbn [fst snd date hourlyData sunrise sunset daily_base description condition] in *.
  split; [reflexivity|]. split.
  - apply Forall2_map_eq. revert Hh. apply Forall2_impl. tauto.
  - split; [reflexivity|]. split; reflexivity.
Qed.

(** X14. A generated forecast has one day per day asked for; the date of
    the day at index i is the start date on which [setDate] has been called
    with the start date's [getDate] plus i, whatever the two methods
    compute; each day carries twenty-four hourly samples with the hours
    0..23 in order, the fixed sunrise 06:30 and sunset 18:45, and the
    description of its condition. *)
Theorem generateDailyForecast_shape :
  forall (startDate : Date) (days : nat) (w : World),
    let f := fst (forecastOf startDate days w) in
    List.length f = days
    /\ map date f = map (fun i => setDate startDate (getDate startDate + ofNat i)) (seq 0 days)
    /\ Forall (fun d : DailyWeather =>
                 map hour (hourlyData d) = map ofNat (seq 0 24)
                 /\ sunrise d = "06:30" /\ sunset d = "18:45"
                 /\ description d = getConditionDescription (condition d)) f.
Proof.
  intros startDate days w f. subst f.
  unfold generateDailyForecast, getRandomInRange, Math_random, bind, ret.
  cbv beta iota zeta.
  match goal with
  | |- context [forEachM (seq 0 days) ?body ?w'] =>
      pose proof (forEachM_Forall2 _
                    (fun i (d : DailyWeather) =>
                       date d = setDate startDate (getDate startDate + ofNat i)
                       /\ map hour (hourlyData d) = map ofNat (seq 0 24)
                       /\ sunrise d = "06:30" /\ sunset d = "18:45"
                       /\ description d = getConditionDescription (condition d))
                    body (fun i w'' => generateDay_fields _ _ i w'')
                    (seq 0 days) w') as H;
      destruct (forEachM (seq 0 days) body w') as [f w2]
  end.
  cbn [fst] in *.
  split; [rewrite <- (Forall2_length H); apply length_seq|].
  split; [apply Forall2_map_eq; revert H; apply Forall2_impl; tauto|].
  apply (Forall2_right _ _ (seq 0 days)). revert H. apply Forall2_impl. tauto.
Qed.

End GeneratedData.

(** X15 with stand-ins for the platform: a clock at ten on a Wednesday in
    May and a random source stuck at one half. *)
Lemma generateRealisticAQI_bounds_witness :
  let r := generateRealisticAQI (fun x => x) (fun _ => 10) (fun _ => 3)
             (fun _ => 4) (fun d => d) 0 0
             {| randoms := fun _ => 0.5; now := 0%Z |} in
  is_nan (fst r) = false /\ JS.le 8 (fst r) = true /\ JS.le (fst r) 65 = true.
Proof.
  intros r.
  assert (H : is_nan (fst r) = false) by (vm_compute; reflexivity).
  split; [exact H|].
  exact (generateRealisticAQI_bounds (fun x => x) (fun _ => 10) (fun _ => 3)
           (fun _ => 4) (fun d => d) 0 0
           {| randoms := fun _ => 0.5; now := 0%Z |} H).
Defined.
